(** * Shallow embedding of the backend-posthog-demo telemetry relay

    Sources: [src/src/index.ts] (the Express handlers) and its [utils]
    module ([getIdsFromCookies], [getBrowserInfo], [getDeviceAndOS],
    [getUTMTags], [getReferrerInfo], [getVisitInfo]).

    Modelling choices:
    - JavaScript strings are [string]; JavaScript values that reach an
      event's properties are [jsval]; a plain JS object is an association
      list [obj] with JS property semantics (assigning an existing key
      keeps its position, a new key is appended; spreading assigns every
      key of the source in order).
    - [req.cookies] (the cookie-parser result) is a [gmap string string].
    - An exception thrown by a handler ([new URL] on a malformed string)
      is [None]: Express then answers with its error handler and neither
      the sink call nor the cookies of the handler happen.
    - [uuidv7()] is impure; its results are explicit arguments.
    - The WHATWG URL parser ([new URL(s).hostname]) and the
      form-urlencoded percent-decoder used by [URLSearchParams] belong to
      the platform: they are the section variables [url_hostname] and
      [form_decode]. *)

From stdpp Require Import base gmap strings list fin_maps.
From Stdlib Require Import ZArith Ascii.

Open Scope string_scope.
Open Scope list_scope.

(* ------------------------------------------------------------------ *)
(** ** JavaScript values and objects *)

Inductive jsval :=
| JUndef
| JNull
| JStr (s : string)
| JBool (b : bool)
| JNum (z : Z).

(** Truthiness ([!!v]). *)
Definition truthy (v : jsval) : bool :=
  match v with
  | JUndef | JNull => false
  | JStr s => negb (String.eqb s "")
  | JBool b => b
  | JNum z => negb (Z.eqb z 0)
  end.

(** An optional string (a cookie, an optional field) as a JS value. *)
Definition of_opt (o : option string) : jsval :=
  match o with Some s => JStr s | None => JUndef end.

Definition truthy_opt (o : option string) : bool := truthy (of_opt o).

Definition obj := list (string * jsval).

(** [o[k]] as an own-property lookup: [None] when the key is absent. *)
Fixpoint obj_get (k : string) (o : obj) : option jsval :=
  match o with
  | [] => None
  | (k', v) :: o' => if String.eqb k k' then Some v else obj_get k o'
  end.

(** [o.k] in an expression: an absent key reads as [undefined]. *)
Definition obj_read (k : string) (o : obj) : jsval :=
  match obj_get k o with Some v => v | None => JUndef end.

(** [o[k] = v]. *)
Fixpoint obj_set (k : string) (v : jsval) (o : obj) : obj :=
  match o with
  | [] => [(k, v)]
  | (k', v') :: o' =>
      if String.eqb k k' then (k, v) :: o' else (k', v') :: obj_set k v o'
  end.

(** [{...o, ...src}]. *)
Definition obj_spread (o src : obj) : obj :=
  fold_left (fun acc kv => obj_set kv.1 kv.2 acc) src o.

(** An object literal: its entries (and spreads) assigned in order. *)
Definition obj_lit (entries : list (string * jsval)) : obj := obj_spread [] entries.

(** [...(c && {...})]: spreading [false] adds nothing. *)
Definition spread_if (c : bool) (o : obj) : obj := if c then o else [].

(* ------------------------------------------------------------------ *)
(** ** Strings: the [String.prototype] methods the code uses *)

Fixpoint starts_with (p s : string) : bool :=
  match p, s with
  | EmptyString, _ => true
  | String c p', String d s' => Ascii.eqb c d && starts_with p' s'
  | String _ _, EmptyString => false
  end.

(** [s.includes(p)]. *)
Fixpoint includes (s p : string) : bool :=
  starts_with p s ||
  match s with
  | EmptyString => false
  | String _ s' => includes s' p
  end.

Definition lower_ascii (c : Ascii.ascii) : Ascii.ascii :=
  let n := Ascii.nat_of_ascii c in
  if (65 <=? n)%nat && (n <=? 90)%nat then Ascii.ascii_of_nat (n + 32) else c.

Fixpoint lower (s : string) : string :=
  match s with
  | EmptyString => EmptyString
  | String c s' => String (lower_ascii c) (lower s')
  end.

(** [/p/i.test(s)] for a lowercase ASCII literal [p]. *)
Definition test_i (p s : string) : bool := includes (lower s) p.

(* ------------------------------------------------------------------ *)
(** ** Identity resolver: [getIdsFromCookies] *)

Record Ids := {
  organization_slug : option string;
  project_ref : option string;
  user_id : option string;
  anonymous_id : string;
  session_id : string
}.

(** [gen_anon] and [gen_sess] are the two [uuidv7()] results, in call
    order. [a ?? b] keeps [a] unless it is [undefined]. *)
Definition getIdsFromCookies (cookies : gmap string string)
    (gen_anon gen_sess : string) : Ids :=
  {| organization_slug := cookies !! "organization_id";
     project_ref := cookies !! "project_id";
     user_id := cookies !! "user_id";
     anonymous_id := from_option id gen_anon (cookies !! "anonymous_id");
     session_id := from_option id gen_sess (cookies !! "session_id") |}.

(* ------------------------------------------------------------------ *)
(** ** Session boundary: the two flags of the [/telemetry/page] handler *)

Definition isInitialSession (cookies : gmap string string) : bool :=
  negb (truthy_opt (cookies !! "session_id")) &&
  negb (truthy_opt (cookies !! "anonymous_id")) &&
  negb (truthy_opt (cookies !! "user_id")).

Definition hasActiveSession (cookies : gmap string string) : bool :=
  truthy_opt (cookies !! "session_id").

Inductive SessionState := NewVisitor | NewSession | ActiveSession.

(** The three states the two flags distinguish. *)
Definition classify_session (cookies : gmap string string) : SessionState :=
  if hasActiveSession cookies then ActiveSession
  else if isInitialSession cookies then NewVisitor
  else NewSession.

(* ------------------------------------------------------------------ *)
(** ** Regular-expression captures used by the user-agent parsers

    Every pattern of the code is [/<literal>(<capture>)/] (or an
    alternation of literals before the capture), and [s.match(re)?.[1]]
    is the capture of the leftmost match. [\d+] is greedy; in
    [\d+\.\d+] and [\d+_\d+] backtracking never helps, since a shorter
    first run is followed by a digit, not by the separator. *)

Definition is_digit (c : Ascii.ascii) : bool :=
  let n := Ascii.nat_of_ascii c in (48 <=? n)%nat && (n <=? 57)%nat.

(** The longest run of digits at the start, and the rest. *)
Fixpoint take_digits (s : string) : string * string :=
  match s with
  | EmptyString => (EmptyString, EmptyString)
  | String c s' =>
      if is_digit c then let (d, r) := take_digits s' in (String c d, r)
      else (EmptyString, s)
  end.

(** [(\d+)] at the start of [s]. *)
Definition cap_digits (s : string) : option string :=
  let (d, _) := take_digits s in
  if String.eqb d "" then None else Some d.

(** [(\d+<sep>\d+)] at the start of [s]. *)
Definition cap_digits_sep (sep : Ascii.ascii) (s : string) : option string :=
  match take_digits s with
  | (d1, String c r) =>
      if negb (String.eqb d1 "") && Ascii.eqb c sep then
        match cap_digits r with
        | Some d2 => Some (String.append d1 (String c d2))
        | None => None
        end
      else None
  | _ => None
  end.

Fixpoint strip_prefix (p s : string) : option string :=
  match p, s with
  | EmptyString, _ => Some s
  | String c p', String d s' => if Ascii.eqb c d then strip_prefix p' s' else None
  | String _ _, EmptyString => None
  end.

(** At one position: the alternatives in order, each followed by the capture. *)
Fixpoint match_here (alts : list string) (cap : string -> option string)
    (s : string) : option string :=
  match alts with
  | [] => None
  | p :: alts' =>
      match strip_prefix p s with
      | Some r => match cap r with
                  | Some c => Some c
                  | None => match_here alts' cap s
                  end
      | None => match_here alts' cap s
      end
  end.

(** [s.match(/(?:alt1|alt2|...)(cap)/)?.[1]]: leftmost position first. *)
Fixpoint regex_capture (alts : list string) (cap : string -> option string)
    (s : string) : option string :=
  match match_here alts cap s with
  | Some c => Some c
  | None =>
      match s with
      | EmptyString => None
      | String _ s' => regex_capture alts cap s'
      end
  end.

(* ------------------------------------------------------------------ *)
(** ** [getBrowserInfo] and [getDeviceAndOS] *)

Record BrowserInfo := { browser : option string; version : option string }.

Definition getBrowserInfo (userAgent : string) : BrowserInfo :=
  if includes userAgent "Chrome" then
    {| browser := Some "Chrome";
       version := regex_capture ["Chrome/"] cap_digits userAgent |}
  else if includes userAgent "Firefox" then
    {| browser := Some "Firefox";
       version := regex_capture ["Firefox/"] cap_digits userAgent |}
  else if includes userAgent "Safari" then
    (if negb (includes userAgent "Chrome") then
       {| browser := Some "Safari";
          version := regex_capture ["Version/"] cap_digits userAgent |}
     else {| browser := None; version := None |})
  else if includes userAgent "Edge" then
    {| browser := Some "Edge";
       version := regex_capture ["Edge/"] cap_digits userAgent |}
  else if includes userAgent "MSIE" || includes userAgent "Trident" then
    {| browser := Some "Internet Explorer";
       version := regex_capture ["MSIE "; "rv:"] cap_digits userAgent |}
  else {| browser := None; version := None |}.

Record DeviceAndOS := {
  deviceType : option string;
  os : option string;
  osVersion : option string
}.

(** The Android and iOS branches assign [os] twice, as the source does. *)
Definition getDeviceAndOS (userAgent : string) : DeviceAndOS :=
  let deviceType :=
    if test_i "mobile" userAgent then "Mobile"
    else if test_i "tablet" userAgent then "Tablet"
    else "Desktop" in
  let '(os, osVersion) :=
    if includes userAgent "Win" then
      (Some "Windows", regex_capture ["Windows NT "] (cap_digits_sep "."%char) userAgent)
    else if includes userAgent "Mac" then
      (Some "MacOS", regex_capture ["Mac OS X "] (cap_digits_sep "_"%char) userAgent)
    else if includes userAgent "Linux" then
      (Some "Linux", None)
    else if includes userAgent "Android" then
      let os := Some "Android" in
      let os := regex_capture ["Android "] (cap_digits_sep "."%char) userAgent in
      (os, None)
    else if includes userAgent "iOS" || includes userAgent "iPhone"
            || includes userAgent "iPad" then
      let os := Some "iOS" in
      let os := regex_capture ["OS "] (cap_digits_sep "_"%char) userAgent in
      (os, None)
    else (None, None) in
  {| deviceType := Some deviceType; os := os; osVersion := osVersion |}.

(* ------------------------------------------------------------------ *)
(** ** Data the handlers receive and produce *)

(** The [ph] object of a page or event body. *)
Record Ph := {
  user_agent : string;
  search : string;
  referrer : string;
  language : jsval;
  viewport_height : jsval;
  viewport_width : jsval
}.

(** [req.body]: the union of the fields the handlers destructure. The
    identify bodies' [user_id], [organization_slug] and [project_ref] are
    prefixed with [body_] to keep them apart from the fields of [Ids]. *)
Record Body := {
  action : string;
  page_url : string;
  page_title : jsval;
  pathname : jsval;
  ph : Ph;
  custom_properties : obj;
  body_user_id : string;
  body_organization_slug : option string;
  body_project_ref : option string;
  reset_organization : jsval;
  reset_project : jsval
}.

Record Headers := {
  host : option string;
  x_forwarded_for : option string;
  remoteAddress : option string   (** [req.socket.remoteAddress] *)
}.

Record Request := {
  cookies : gmap string string;
  headers : Headers;
  body : Body
}.

(** The [capture] argument; [sendFeatureFlags] is always [true] and
    omitted. [groups = None] is an object without a [groups] key. *)
Record Event := {
  distinctId : string;
  event : string;
  properties : obj;
  groups : option (list (string * string))
}.

(** Calls on the PostHog client. *)
Inductive SinkCall :=
| GetAllFlagsAndPayloads (distinct : string) (groups_arg : list (string * string))
| Capture (e : Event)
| Identify (distinct : string) (props : obj)
| Alias (distinct alias : string)
| GroupIdentify (distinct groupType groupKey : string) (props : obj).

(** [res.cookie(name, value, {httpOnly: true, maxAge, sameSite: 'lax'})]
    and [res.clearCookie(name)]. *)
Inductive CookieDirective :=
| SetCookie (name value : string) (maxAge : Z)
| ClearCookie (name : string).

(** What one request does: its sink calls, its cookie directives and
    the status it answers with ([None]: the handler never answers). *)
Record Outcome := {
  calls : list SinkCall;
  directives : list CookieDirective;
  status : option Z
}.

Definition YEAR_IN_MS : Z := 3600000 * 24 * 365.
Definition THIRTY_MIN_IN_MS : Z := 3600000 / 2.

(** [if (v) res.cookie(name, v, {..., maxAge})]. *)
Definition cookie_if (name : string) (v : option string) (maxAge : Z)
    : list CookieDirective :=
  match v with
  | Some s => if truthy (JStr s) then [SetCookie name s maxAge] else []
  | None => []
  end.

(** [...(!!organization_slug && { groups: { organization: organization_slug,
    ...!!project_ref && { project: project_ref }}})], the expression the
    event, page and pageleave handlers share. *)
Definition groups_field (organization_slug project_ref : option string)
    : option (list (string * string)) :=
  match organization_slug with
  | Some o =>
      if truthy (JStr o) then
        Some (("organization", o) ::
              match project_ref with
              | Some p => if truthy (JStr p) then [("project", p)] else []
              | None => []
              end)
      else None
  | None => None
  end.

(** [user_id ?? anonymous_id]. *)
Definition distinct_of (ids : Ids) : string :=
  from_option id (anonymous_id ids) (user_id ids).

(** [a || b] on two optional strings. *)
Definition js_or_opt (a b : option string) : jsval :=
  if truthy_opt a then of_opt a else of_opt b.

(** [a ?? b] on two optional strings. *)
Definition js_nullish_opt (a b : option string) : jsval :=
  match a with Some s => JStr s | None => of_opt b end.

(* ------------------------------------------------------------------ *)
(** ** The platform parsers, and everything built on them *)

Section Platform.

(** [new URL(s).hostname], [None] when [new URL(s)] throws. *)
Variable url_hostname : string -> option string.
(** The application/x-www-form-urlencoded byte decoding of a name or a
    value ([+] to space, then percent-decoding). *)
Variable form_decode : string -> string.

(** *** [URLSearchParams] *)

Fixpoint split_on (sep : Ascii.ascii) (s : string) : list string :=
  match s with
  | EmptyString => [EmptyString]
  | String c s' =>
      if Ascii.eqb c sep then EmptyString :: split_on sep s'
      else match split_on sep s' with
           | h :: t => String c h :: t
           | [] => [String c EmptyString]
           end
  end.

(** The text before the first [sep], and the text after it if any. *)
Fixpoint break_at (sep : Ascii.ascii) (s : string) : string * option string :=
  match s with
  | EmptyString => (EmptyString, None)
  | String c s' =>
      if Ascii.eqb c sep then (EmptyString, Some s')
      else let (n, v) := break_at sep s' in (String c n, v)
  end.

(** [new URLSearchParams(search)]: a leading [?] is dropped, the rest is
    split on [&], empty sequences are skipped, each sequence is split at
    its first [=] (no [=]: the value is empty), and both halves decoded. *)
Definition URLSearchParams (search : string) : list (string * string) :=
  let s := match search with
           | String c s' => if Ascii.eqb c "?" then s' else search
           | EmptyString => search
           end in
  map (fun sq => let (n, v) := break_at "=" sq in
                 (form_decode n, form_decode (from_option id EmptyString v)))
      (List.filter (fun sq => negb (String.eqb sq EmptyString)) (split_on "&" s)).

(** [urlParams.get(name)]: the first value, [None] for [null]. *)
Fixpoint params_get (name : string) (ps : list (string * string)) : option string :=
  match ps with
  | [] => None
  | (n, v) :: ps' => if String.eqb n name then Some v else params_get name ps'
  end.

(** A [string | null] as a JS value. *)
Definition of_null (o : option string) : jsval :=
  match o with Some s => JStr s | None => JNull end.

(** *** [getUTMTags] *)

Definition getUTMTags (search : string) (isInitialSession : bool) : obj :=
  let urlParams := URLSearchParams search in
  obj_lit
    ([("utm_source", of_null (params_get "utm_source" urlParams));
      ("utm_medium", of_null (params_get "utm_medium" urlParams));
      ("utm_campaign", of_null (params_get "utm_campaign" urlParams));
      ("utm_term", of_null (params_get "utm_term" urlParams));
      ("utm_content", of_null (params_get "utm_content" urlParams))] ++
     spread_if isInitialSession
       [("$initial_utm_source",
         JStr (from_option id "organic" (params_get "utm_source" urlParams)));
        ("$initial_utm_medium",
         JStr (from_option id "organic" (params_get "utm_medium" urlParams)));
        ("$initial_utm_campaign",
         JStr (from_option id "organic" (params_get "utm_campaign" urlParams)));
        ("$initial_utm_term", of_null (params_get "utm_term" urlParams));
        ("$initial_utm_content", of_null (params_get "utm_content" urlParams))]).

(** *** [getReferrerInfo]: [None] when [new URL(referrer)] throws. *)

Record ReferrerInfo := { ref_referrer : jsval; referringDomain : jsval }.

Definition getReferrerInfo (referrer : string) : option ReferrerInfo :=
  let referringDomain :=
    if truthy (JStr referrer) then
      match url_hostname referrer with
      | Some h => Some (JStr h)
      | None => None
      end
    else Some JUndef in
  match referringDomain with
  | Some d =>
      Some {| ref_referrer := if truthy (JStr referrer) then JStr referrer else JUndef;
              referringDomain := d |}
  | None => None
  end.

(** [removeUndefinedValues] on an object whose values are primitives
    (so the recursion into nested objects never fires). *)
Definition removeUndefinedValues (o : obj) : obj :=
  List.filter (fun kv => match kv.2 with JUndef | JNull => false | _ => true end) o.

(** *** [getVisitInfo]; [isInitialSession] is [!!opts?.isInitialSession]. *)

Definition getVisitInfo (ph : Ph) (isInitialSession : bool) : option obj :=
  let browserInfo := getBrowserInfo (user_agent ph) in
  match getReferrerInfo (referrer ph) with
  | None => None
  | Some referrerInfo =>
      let deviceInfo := getDeviceAndOS (user_agent ph) in
      let utmTags := getUTMTags (search ph) isInitialSession in
      Some (removeUndefinedValues (obj_lit
        ([("$raw_user_agent", JStr (user_agent ph));
          ("$browser", of_opt (browser browserInfo));
          ("$browser_version", of_opt (version browserInfo));
          ("$referrer", ref_referrer referrerInfo);
          ("$referring_domain", referringDomain referrerInfo);
          ("$device_type", of_opt (deviceType deviceInfo));
          ("$os", of_opt (os deviceInfo));
          ("$os_version", of_opt (osVersion deviceInfo));
          ("$locale", language ph);
          ("$viewport_height", viewport_height ph);
          ("$viewport_width", viewport_width ph)] ++ utmTags)))
  end.

(* ------------------------------------------------------------------ *)
(** ** The route handlers of [index.ts] *)

(** [GET /telemetry/feature-flags]. *)
Definition handle_feature_flags (req : Request) (gen_anon gen_sess : string)
    : option Outcome :=
  let ids := getIdsFromCookies (cookies req) gen_anon gen_sess in
  Some {| calls := [GetAllFlagsAndPayloads (distinct_of ids)
                      ((if truthy_opt (organization_slug ids)
                        then [("organization", from_option id "" (organization_slug ids))]
                        else []) ++
                       (if truthy_opt (project_ref ids)
                        then [("project", from_option id "" (project_ref ids))]
                        else []))];
          directives := [];
          status := Some 200%Z |}.

(** [POST /telemetry/feature-flags/track]: [groups] is always present. *)
Definition handle_feature_flags_track (req : Request) (gen_anon gen_sess : string)
    : option Outcome :=
  let ids := getIdsFromCookies (cookies req) gen_anon gen_sess in
  Some {| calls := [Capture {| distinctId := distinct_of ids;
                               event := "$feature_flag_called";
                               properties := [];
                               groups := Some
                                 ((if truthy_opt (organization_slug ids)
                                   then [("organization", from_option id "" (organization_slug ids))]
                                   else []) ++
                                  (if truthy_opt (project_ref ids)
                                   then [("project", from_option id "" (project_ref ids))]
                                   else [])) |}];
          directives := [];
          status := Some 200%Z |}.

(** [POST /telemetry/identify]. *)
Definition handle_identify (req : Request) : option Outcome :=
  let b := body req in
  let user_id := body_user_id b in
  let anonymous_id := cookies req !! "anonymous_id" in
  let org_calls :=
    match body_organization_slug b with
    | Some o => if truthy (JStr o)
                then [GroupIdentify user_id "organization" o [("organizationSlug", JStr o)]]
                else []
    | None => []
    end in
  let proj_calls :=
    match body_project_ref b with
    | Some p => if truthy (JStr p)
                then [GroupIdentify user_id "project" p [("projectRef", JStr p)]]
                else []
    | None => []
    end in
  Some {| calls := [Identify user_id [("gotrueId", JStr user_id)]] ++
                   (match anonymous_id with
                    | Some a => if truthy (JStr a) then [Alias user_id a] else []
                    | None => []
                    end) ++ org_calls ++ proj_calls;
          directives := [SetCookie "user_id" user_id YEAR_IN_MS] ++
                        cookie_if "organization_slug" (body_organization_slug b) YEAR_IN_MS ++
                        cookie_if "project_ref" (body_project_ref b) YEAR_IN_MS;
          status := Some 200%Z |}.

(** [POST /telemetry/reset]. *)
Definition handle_reset (req : Request) : option Outcome :=
  Some {| calls := [];
          directives := [ClearCookie "user_id"; ClearCookie "organization_slug";
                         ClearCookie "project_ref"; ClearCookie "anonymous_id";
                         ClearCookie "session_id"];
          status := Some 200%Z |}.

(** [POST /telemetry/groups/identify]: it never sends a response (and
    returns early without a [user_id] cookie). *)
Definition handle_groups_identify (req : Request) : option Outcome :=
  let b := body req in
  match cookies req !! "user_id" with
  | Some user_id =>
      if truthy (JStr user_id) then
        Some {| calls :=
                  (match body_organization_slug b with
                   | Some o => if truthy (JStr o)
                               then [GroupIdentify user_id "organization" o
                                       [("organizationSlug", JStr o)]]
                               else []
                   | None => []
                   end) ++
                  (match body_project_ref b with
                   | Some p => if truthy (JStr p)
                               then [GroupIdentify user_id "project" p [("projectRef", JStr p)]]
                               else []
                   | None => []
                   end);
                directives :=
                  cookie_if "organization_slug" (body_organization_slug b) YEAR_IN_MS ++
                  cookie_if "project_ref" (body_project_ref b) YEAR_IN_MS;
                status := None |}
      else Some {| calls := []; directives := []; status := None |}
  | None => Some {| calls := []; directives := []; status := None |}
  end.

(** [POST /telemetry/groups/reset]. *)
Definition handle_groups_reset (req : Request) : option Outcome :=
  let b := body req in
  Some {| calls := [];
          directives := (if truthy (reset_organization b)
                         then [ClearCookie "organization_slug"] else []) ++
                        (if truthy (reset_project b)
                         then [ClearCookie "project_ref"] else []);
          status := Some 200%Z |}.

(** The cookie directives the event and page handlers end with. *)
Definition per_event_cookies (ids : Ids) : list CookieDirective :=
  [SetCookie "session_id" (session_id ids) THIRTY_MIN_IN_MS;
   SetCookie "anonymous_id" (anonymous_id ids) YEAR_IN_MS] ++
  cookie_if "user_id" (user_id ids) THIRTY_MIN_IN_MS ++
  cookie_if "organization_slug" (organization_slug ids) YEAR_IN_MS ++
  cookie_if "project_ref" (project_ref ids) YEAR_IN_MS.

(** [POST /telemetry/event]. *)
Definition handle_event (req : Request) (gen_anon gen_sess : string)
    : option Outcome :=
  let b := body req in
  let ip := js_or_opt (x_forwarded_for (headers req)) (remoteAddress (headers req)) in
  let ids := getIdsFromCookies (cookies req) gen_anon gen_sess in
  match getVisitInfo (ph b) false with
  | None => None
  | Some visitProperties =>
      match url_hostname (page_url b) with
      | None => None
      | Some hostname =>
          Some {| calls :=
                    [Capture {| distinctId := distinct_of ids;
                                event := action b;
                                properties := obj_lit
                                  ([("$ip", ip);
                                    ("page_title", page_title b);
                                    ("$pathname", pathname b);
                                    ("$current_url", JStr (page_url b));
                                    ("$host", JStr hostname);
                                    ("$process_person_profile", JBool (truthy_opt (user_id ids)));
                                    ("$session_id", JStr (session_id ids))] ++
                                   visitProperties ++ custom_properties b);
                                groups := groups_field (organization_slug ids) (project_ref ids) |}];
                  directives := per_event_cookies ids;
                  status := Some 200%Z |}
      end
  end.

(** [POST /telemetry/page]. The host test is the source's
    [(req.headers.host === 'localhost' || '127.0.0.1')]. *)
Definition handle_page (req : Request) (gen_anon gen_sess : string)
    : option Outcome :=
  let b := body req in
  let hdr := headers req in
  let host_test :=
    if truthy (JBool (bool_decide (host hdr = Some "localhost")))
    then JBool true else JStr "127.0.0.1" in
  let ip := if truthy host_test then JUndef
            else js_nullish_opt (x_forwarded_for hdr) (remoteAddress hdr) in
  let isInitial := isInitialSession (cookies req) in
  let hasActive := hasActiveSession (cookies req) in
  let ids := getIdsFromCookies (cookies req) gen_anon gen_sess in
  match getVisitInfo (ph b) isInitial with
  | None => None
  | Some visitProperties =>
      match url_hostname (page_url b) with
      | None => None
      | Some hostname =>
          Some {| calls :=
                    [Capture {| distinctId := distinct_of ids;
                                event := "$pageview";
                                properties := obj_lit
                                  ([("$ip", ip);
                                    ("page_title", page_title b);
                                    ("$pathname", pathname b);
                                    ("$current_url", JStr (page_url b));
                                    ("$host", JStr hostname);
                                    ("$process_person_profile", JBool (truthy_opt (user_id ids)));
                                    ("$session_id", JStr (session_id ids))] ++
                                   visitProperties ++
                                   spread_if (negb hasActive)
                                     [("$entry_current_url", JStr (page_url b));
                                      ("$entry_pathname", pathname b);
                                      ("$entry_utm_source", obj_read "utm_source" visitProperties);
                                      ("$entry_utm_medium", obj_read "utm_medium" visitProperties);
                                      ("$entry_utm_campaign", obj_read "utm_campaign" visitProperties);
                                      ("$entry_utm_term", obj_read "utm_term" visitProperties);
                                      ("$entry_utm_content", obj_read "utm_content" visitProperties);
                                      ("$entry_referrer", obj_read "$referrer" visitProperties);
                                      ("$entry_referring_domain",
                                       obj_read "$referring_domain" visitProperties)]);
                                groups := groups_field (organization_slug ids) (project_ref ids) |}];
                  directives := per_event_cookies ids;
                  status := Some 200%Z |}
      end
  end.

(** [POST /telemetry/pageleave]: no visit context and no cookies. *)
Definition handle_pageleave (req : Request) (gen_anon gen_sess : string)
    : option Outcome :=
  let b := body req in
  let ip := js_or_opt (x_forwarded_for (headers req)) (remoteAddress (headers req)) in
  let ids := getIdsFromCookies (cookies req) gen_anon gen_sess in
  match url_hostname (page_url b) with
  | None => None
  | Some hostname =>
      Some {| calls :=
                [Capture {| distinctId := distinct_of ids;
                            event := "$pageleave";
                            properties := obj_lit
                              [("page_title", page_title b);
                               ("$current_url", JStr (page_url b));
                               ("$host", JStr hostname);
                               ("$pathname", pathname b);
                               ("$exit_current_url", JStr (page_url b));
                               ("$exit_pathname", pathname b);
                               ("$process_person_profile", JBool (truthy_opt (user_id ids)));
                               ("$session_id", JStr (session_id ids));
                               ("$ip", ip)];
                            groups := groups_field (organization_slug ids) (project_ref ids) |}];
              directives := [];
              status := Some 200%Z |}
  end.

Inductive Route :=
| FeatureFlags | FeatureFlagsTrack | IdentifyRoute | Reset | GroupsIdentify
| GroupsReset | EventRoute | Page | Pageleave.

(** The router; [gen_anon] and [gen_sess] feed [getIdsFromCookies]. *)
Definition handle (r : Route) (req : Request) (gen_anon gen_sess : string)
    : option Outcome :=
  match r with
  | FeatureFlags => handle_feature_flags req gen_anon gen_sess
  | FeatureFlagsTrack => handle_feature_flags_track req gen_anon gen_sess
  | IdentifyRoute => handle_identify req
  | Reset => handle_reset req
  | GroupsIdentify => handle_groups_identify req
  | GroupsReset => handle_groups_reset req
  | EventRoute => handle_event req gen_anon gen_sess
  | Page => handle_page req gen_anon gen_sess
  | Pageleave => handle_pageleave req gen_anon gen_sess
  end.

(** *** The browser's cookie jar across requests *)

Definition apply_directive (jar : gmap string string) (d : CookieDirective)
    : gmap string string :=
  match d with
  | SetCookie n v _ => <[n:=v]> jar
  | ClearCookie n => delete n jar
  end.

Definition apply_directives (jar : gmap string string) (ds : list CookieDirective)
    : gmap string string :=
  fold_left apply_directive ds jar.

(** One request sent with the jar's cookies: the jar takes the response's
    directives when a response is sent. *)
Record Visit := {
  v_route : Route;
  v_headers : Headers;
  v_body : Body;
  v_gen_anon : string;
  v_gen_sess : string
}.

Definition step (jar : gmap string string) (v : Visit) : gmap string string :=
  match handle (v_route v) {| cookies := jar; headers := v_headers v; body := v_body v |}
               (v_gen_anon v) (v_gen_sess v) with
  | Some o => match status o with
              | Some _ => apply_directives jar (directives o)
              | None => jar
              end
  | None => jar
  end.

Definition run (jar : gmap string string) (vs : list Visit) : gmap string string :=
  fold_left step vs jar.

End Platform.

(* ------------------------------------------------------------------ *)
(** ** A concrete URL parser for the worked examples

    On the inputs of the examples ([https://] followed by a plain host)
    it gives the hostname the WHATWG parser gives; any other string is
    refused, as [new URL] refuses a string without a scheme. *)

Fixpoint host_part (s : string) : string :=
  match s with
  | EmptyString => EmptyString
  | String c s' =>
      if Ascii.eqb c "/" || Ascii.eqb c ":" || Ascii.eqb c "?" || Ascii.eqb c "#"
      then EmptyString else String c (host_part s')
  end.

Definition example_url_hostname (s : string) : option string :=
  match strip_prefix "https://" s with
  | Some r => let h := host_part r in
              if String.eqb h "" then None else Some h
  | None => None
  end.

(** Inputs of the worked examples. *)
Definition example_ua : string :=
  "Mozilla/5.0 (Windows NT 10.0; Win64; x64) AppleWebKit/537.36 (KHTML, like Gecko) Chrome/120.0.0.0 Safari/537.36".

(** A first page view: no query string and no referrer. *)
Definition example_ph : Ph :=
  {| user_agent := example_ua; search := ""; referrer := "";
     language := JStr "en-US"; viewport_height := JNum 900;
     viewport_width := JNum 1440 |}.

Definition example_body : Body :=
  {| action := "signup_clicked"; page_url := "https://example.com/pricing";
     page_title := JStr "Pricing"; pathname := JStr "/pricing"; ph := example_ph;
     custom_properties := []; body_user_id := "user_1";
     body_organization_slug := Some "org_1"; body_project_ref := None;
     reset_organization := JBool false; reset_project := JBool false |}.

(** A request reaching the server through a proxy, for a public host. *)
Definition example_headers : Headers :=
  {| host := Some "example.com"; x_forwarded_for := Some "203.0.113.7";
     remoteAddress := Some "10.0.0.1" |}.

Definition example_request (jar : gmap string string) : Request :=
  {| cookies := jar; headers := example_headers; body := example_body |}.

(** The same page view arriving from a search engine. *)
Definition example_ph_ref : Ph :=
  {| user_agent := example_ua; search := ""; referrer := "https://google.com/search";
     language := JStr "en-US"; viewport_height := JNum 900;
     viewport_width := JNum 1440 |}.

(** A referrer [new URL] refuses (no scheme). *)
Definition example_ph_bad_ref : Ph :=
  {| user_agent := example_ua; search := ""; referrer := "google.com/search";
     language := JStr "en-US"; viewport_height := JNum 900;
     viewport_width := JNum 1440 |}.

Definition example_request_bad_ref : Request :=
  {| cookies := ∅; headers := example_headers;
     body := {| action := "signup_clicked"; page_url := "https://example.com/pricing";
                page_title := JStr "Pricing"; pathname := JStr "/pricing";
                ph := example_ph_bad_ref; custom_properties := [];
                body_user_id := "user_1"; body_organization_slug := None;
                body_project_ref := None; reset_organization := JBool false;
                reset_project := JBool false |} |}.

Definition example_gen_anon : string := "0192f000-0000-7000-8000-000000000001".
Definition example_gen_sess : string := "0192f000-0000-7000-8000-000000000002".

(** A sign-in followed by a tracked event. *)
Definition example_trace : list Visit :=
  [{| v_route := IdentifyRoute; v_headers := example_headers; v_body := example_body;
      v_gen_anon := example_gen_anon; v_gen_sess := example_gen_sess |};
   {| v_route := EventRoute; v_headers := example_headers; v_body := example_body;
      v_gen_anon := example_gen_anon; v_gen_sess := example_gen_sess |}].

(** Keys the visit context can hold. *)
Definition visit_keys : list string :=
  ["$raw_user_agent"; "$browser"; "$browser_version"; "$referrer";
   "$referring_domain"; "$device_type"; "$os"; "$os_version"; "$locale";
   "$viewport_height"; "$viewport_width"; "utm_source"; "utm_medium";
   "utm_campaign"; "utm_term"; "utm_content"; "$initial_utm_source";
   "$initial_utm_medium"; "$initial_utm_campaign"; "$initial_utm_term";
   "$initial_utm_content"].

(** The entry-attribution keys of a page view. *)
Definition entry_keys : list string :=
  ["$entry_current_url"; "$entry_pathname"; "$entry_utm_source";
   "$entry_utm_medium"; "$entry_utm_campaign"; "$entry_utm_term";
   "$entry_utm_content"; "$entry_referrer"; "$entry_referring_domain"].

Definition utm_names : list string :=
  ["utm_source"; "utm_medium"; "utm_campaign"; "utm_term"; "utm_content"].

(** A query string with none of the five UTM parameters. *)
Definition no_utm (form_decode : string -> string) (search : string) : Prop :=
  Forall (fun n => params_get n (URLSearchParams form_decode search) = None) utm_names.

Definition directive_name (d : CookieDirective) : string :=
  match d with SetCookie n _ _ => n | ClearCookie n => n end.

(** What a list of cookie directives leaves under one cookie name: the
    last directive naming it decides. *)
Definition dir_effect (k : string) (acc : option string) (d : CookieDirective)
    : option string :=
  match d with
  | SetCookie n v _ => if String.eqb n k then Some v else acc
  | ClearCookie n => if String.eqb n k then None else acc
  end.

(** The five identity cookies the reset handler clears. *)
Definition identity_cookie_names : list string :=
  ["user_id"; "organization_slug"; "project_ref"; "anonymous_id"; "session_id"].

(** A visit of the route [r] with the example headers and body. *)
Definition example_visit (r : Route) : Visit :=
  {| v_route := r; v_headers := example_headers; v_body := example_body;
     v_gen_anon := example_gen_anon; v_gen_sess := example_gen_sess |}.

(** A returning visitor's jar: a user, an anonymous and a session cookie. *)
Definition example_jar : gmap string string :=
  <["user_id":="user_1"]> (<["anonymous_id":="anon_1"]> (<["session_id":="sess_1"]> ∅)).

(* ------------------------------------------------------------------ *)
(** ** Lemmas on JS objects *)

Module ObjFacts.

Definition last_assign (k : string) (acc : option jsval) (kv : string * jsval)
    : option jsval :=
  if String.eqb k kv.1 then Some kv.2 else acc.

Lemma obj_get_set k k' v o :
  obj_get k (obj_set k' v o) = if String.eqb k k' then Some v else obj_get k o.
Proof.
  induction o as [|[k0 v0] o IH]; simpl.
  - reflexivity.
  - destruct (String.eqb k' k0) eqn:E0.
    + apply String.eqb_eq in E0; subst k0. simpl.
      destruct (String.eqb k k'); reflexivity.
    + simpl. rewrite IH. destruct (String.eqb k k0) eqn:E1; [|reflexivity].
      apply String.eqb_eq in E1; subst k0.
      destruct (String.eqb k k') eqn:E2; [|reflexivity].
      apply String.eqb_eq in E2; subst k'.
      rewrite String.eqb_refl in E0. discriminate.
Qed.

(** A spread leaves, for each key, the last value assigned to it. *)
Lemma obj_get_spread k o src :
  obj_get k (obj_spread o src) = fold_left (last_assign k) src (obj_get k o).
Proof.
  revert o. induction src as [|[k' v] src IH]; intros o; simpl.
  - reflexivity.
  - unfold obj_spread in *. simpl. rewrite IH, obj_get_set. reflexivity.
Qed.

Lemma obj_get_lit k l : obj_get k (obj_lit l) = fold_left (last_assign k) l None.
Proof. unfold obj_lit. rewrite obj_get_spread. reflexivity. Qed.

Lemma keys_set k v o x :
  In x (map fst (obj_set k v o)) -> x = k \/ In x (map fst o).
Proof.
  induction o as [|[k0 v0] o IH]; simpl.
  - intuition.
  - destruct (String.eqb k k0) eqn:E; simpl.
    + apply String.eqb_eq in E; subst. intuition.
    + intros [H|H]; [intuition|]. destruct (IH H); intuition.
Qed.

Lemma keys_spread o src x :
  In x (map fst (obj_spread o src)) -> In x (map fst o) \/ In x (map fst src).
Proof.
  revert o. induction src as [|[k v] src IH]; intros o H; simpl in *.
  - intuition.
  - unfold obj_spread in H. simpl in H. destruct (IH _ H) as [H1|H1].
    + destruct (keys_set _ _ _ _ H1); intuition.
    + intuition.
Qed.

Lemma keys_lit l x : In x (map fst (obj_lit l)) -> In x (map fst l).
Proof. unfold obj_lit. intros H. destruct (keys_spread _ _ _ H) as [[]|]; auto. Qed.

Lemma keys_remove o x :
  In x (map fst (removeUndefinedValues o)) -> In x (map fst o).
Proof.
  unfold removeUndefinedValues. intros H. apply in_map_iff in H as [[k v] [<- H]].
  apply filter_In in H as [H _]. apply in_map_iff. exists (k, v). auto.
Qed.

Lemma nodup_set k v o : List.NoDup (map fst o) -> List.NoDup (map fst (obj_set k v o)).
Proof.
  induction o as [|[k0 v0] o IH]; simpl; intros Hnd.
  - constructor; [intros []|constructor].
  - inversion Hnd as [|? ? Hnin Hnd']; subst.
    destruct (String.eqb k k0) eqn:E; simpl.
    + apply String.eqb_eq in E; subst. constructor; auto.
    + constructor; [|auto]. intros Hin. destruct (keys_set _ _ _ _ Hin) as [->|Hin'].
      * rewrite String.eqb_refl in E. discriminate.
      * contradiction.
Qed.

Lemma nodup_spread o src : List.NoDup (map fst o) -> List.NoDup (map fst (obj_spread o src)).
Proof.
  revert o. induction src as [|[k v] src IH]; intros o Hnd; simpl.
  - exact Hnd.
  - unfold obj_spread. simpl. apply IH, nodup_set, Hnd.
Qed.

Lemma nodup_lit l : List.NoDup (map fst (obj_lit l)).
Proof. apply nodup_spread. constructor. Qed.

Lemma obj_get_not_in k o : ~ In k (map fst o) -> obj_get k o = None.
Proof.
  induction o as [|[k0 v0] o IH]; simpl; intros H; [reflexivity|].
  destruct (String.eqb k k0) eqn:E.
  - apply String.eqb_eq in E; subst. intuition.
  - apply IH. intuition.
Qed.

Lemma nodup_remove o : List.NoDup (map fst o) -> List.NoDup (map fst (removeUndefinedValues o)).
Proof.
  induction o as [|[k v] o IH]; simpl; intros Hnd; [constructor|].
  inversion Hnd as [|? ? Hnin Hnd']; subst.
  destruct v; simpl; auto; constructor; auto; intros Hin; apply Hnin, keys_remove, Hin.
Qed.

(** Stripping [undefined] and [null] on an object without duplicate keys. *)
Lemma obj_get_remove k o :
  List.NoDup (map fst o) ->
  obj_get k (removeUndefinedValues o) =
  match obj_get k o with Some JUndef | Some JNull => None | x => x end.
Proof.
  induction o as [|[k0 v0] o IH]; simpl; intros Hnd; [reflexivity|].
  inversion Hnd as [|? ? Hnin Hnd']; subst.
  destruct (String.eqb k k0) eqn:E.
  - apply String.eqb_eq in E; subst k0.
    destruct v0; simpl; try rewrite String.eqb_refl; try reflexivity;
      apply obj_get_not_in; intros Hin; apply Hnin, keys_remove, Hin.
  - destruct v0; simpl; try rewrite E; apply IH; exact Hnd'.
Qed.

(** On an object without duplicate keys the last assignment is the only one. *)
Lemma fold_last_assign_nodup k o acc :
  List.NoDup (map fst o) ->
  fold_left (last_assign k) o acc =
  match obj_get k o with Some v => Some v | None => acc end.
Proof.
  revert acc. induction o as [|[k0 v0] o IH]; intros acc Hnd; simpl; [reflexivity|].
  inversion Hnd as [|? ? Hnin Hnd']; subst.
  rewrite IH by exact Hnd'. unfold last_assign. simpl.
  destruct (String.eqb k k0) eqn:E; [|reflexivity].
  apply String.eqb_eq in E; subst k0. rewrite obj_get_not_in by exact Hnin. reflexivity.
Qed.

End ObjFacts.

(* ------------------------------------------------------------------ *)
(** ** Lemmas on the visit context *)

Module VisitFacts.
Import ObjFacts.

Definition initial_names : list string :=
  ["$initial_utm_source"; "$initial_utm_medium"; "$initial_utm_campaign";
   "$initial_utm_term"; "$initial_utm_content"].

Ltac in_concrete :=
  repeat match goal with
         | H : In _ (_ :: _) |- _ => destruct H as [<-|H]
         | H : In _ [] |- _ => destruct H
         end;
  simpl; tauto.

Lemma fold_last_assign_absent k o acc :
  ~ In k (map fst o) -> fold_left (last_assign k) o acc = acc.
Proof.
  revert acc. induction o as [|[k0 v0] o IH]; intros acc H; simpl in *; [reflexivity|].
  unfold last_assign at 2. simpl.
  destruct (String.eqb k k0) eqn:E.
  - apply String.eqb_eq in E; subst. intuition.
  - apply IH. intuition.
Qed.

Lemma getUTMTags_keys fd s flag x :
  In x (map fst (getUTMTags fd s flag)) -> In x (utm_names ++ initial_names).
Proof.
  unfold getUTMTags. intros H. apply keys_lit in H.
  rewrite map_app in H. apply in_app_or in H.
  destruct flag; simpl in H; in_concrete.
Qed.

Lemma getVisitInfo_Some uh fd p flag vp :
  getVisitInfo uh fd p flag = Some vp ->
  exists ri, getReferrerInfo uh (referrer p) = Some ri /\
  vp = removeUndefinedValues (obj_lit
        ([("$raw_user_agent", JStr (user_agent p));
          ("$browser", of_opt (browser (getBrowserInfo (user_agent p))));
          ("$browser_version", of_opt (version (getBrowserInfo (user_agent p))));
          ("$referrer", ref_referrer ri);
          ("$referring_domain", referringDomain ri);
          ("$device_type", of_opt (deviceType (getDeviceAndOS (user_agent p))));
          ("$os", of_opt (os (getDeviceAndOS (user_agent p))));
          ("$os_version", of_opt (osVersion (getDeviceAndOS (user_agent p))));
          ("$locale", language p);
          ("$viewport_height", viewport_height p);
          ("$viewport_width", viewport_width p)] ++ getUTMTags fd (search p) flag)).
Proof.
  unfold getVisitInfo. destruct (getReferrerInfo uh (referrer p)) as [ri|]; [|discriminate].
  intros [= <-]. exists ri. split; reflexivity.
Qed.

Lemma getVisitInfo_keys uh fd p flag vp x :
  getVisitInfo uh fd p flag = Some vp -> In x (map fst vp) -> In x visit_keys.
Proof.
  intros Hv Hx. apply getVisitInfo_Some in Hv as [ri [_ ->]].
  apply keys_remove, keys_lit in Hx. rewrite map_app in Hx.
  apply in_app_or in Hx as [Hx|Hx].
  - simpl in Hx. in_concrete.
  - apply getUTMTags_keys in Hx. simpl in Hx. in_concrete.
Qed.

Lemma getVisitInfo_nodup uh fd p flag vp :
  getVisitInfo uh fd p flag = Some vp -> List.NoDup (map fst vp).
Proof.
  intros Hv. apply getVisitInfo_Some in Hv as [ri [_ ->]].
  apply nodup_remove, nodup_lit.
Qed.

(** With no UTM parameter in the query, the tags are fixed. *)
Lemma getUTMTags_no_utm fd s flag :
  no_utm fd s ->
  getUTMTags fd s flag =
  obj_lit ([("utm_source", JNull); ("utm_medium", JNull); ("utm_campaign", JNull);
            ("utm_term", JNull); ("utm_content", JNull)] ++
           spread_if flag
             [("$initial_utm_source", JStr "organic");
              ("$initial_utm_medium", JStr "organic");
              ("$initial_utm_campaign", JStr "organic");
              ("$initial_utm_term", JNull); ("$initial_utm_content", JNull)]).
Proof.
  unfold no_utm, utm_names. rewrite !Forall_cons_iff.
  intros (H1 & H2 & H3 & H4 & H5 & _).
  unfold getUTMTags. cbv zeta. rewrite H1, H2, H3, H4, H5. reflexivity.
Qed.

(** A key outside the UTM tags reads from the first eleven entries. *)
Lemma getVisitInfo_get_head uh fd p flag vp k :
  getVisitInfo uh fd p flag = Some vp ->
  ~ In k (utm_names ++ initial_names) ->
  exists ri, getReferrerInfo uh (referrer p) = Some ri /\
  obj_get k vp =
  match fold_left (last_assign k)
          [("$raw_user_agent", JStr (user_agent p));
           ("$browser", of_opt (browser (getBrowserInfo (user_agent p))));
           ("$browser_version", of_opt (version (getBrowserInfo (user_agent p))));
           ("$referrer", ref_referrer ri);
           ("$referring_domain", referringDomain ri);
           ("$device_type", of_opt (deviceType (getDeviceAndOS (user_agent p))));
           ("$os", of_opt (os (getDeviceAndOS (user_agent p))));
           ("$os_version", of_opt (osVersion (getDeviceAndOS (user_agent p))));
           ("$locale", language p);
           ("$viewport_height", viewport_height p);
           ("$viewport_width", viewport_width p)] None
  with Some JUndef | Some JNull => None | x => x end.
Proof.
  intros Hv Hk. apply getVisitInfo_Some in Hv as [ri [Hri ->]].
  exists ri. split; [exact Hri|].
  rewrite obj_get_remove by apply nodup_lit.
  rewrite obj_get_lit, fold_left_app, fold_last_assign_absent; [reflexivity|].
  intros Hin. apply Hk. apply getUTMTags_keys with (fd := fd) (s := search p) (flag := flag).
  exact Hin.
Qed.

End VisitFacts.

(* ------------------------------------------------------------------ *)
(** ** The claims *)

Import ObjFacts VisitFacts.

(** C6 (amended): the current UTM block of the visit context is never
    defaulted. For any query string without UTM parameters, whether the
    request is a new visitor's ([isInitialSession] true) or not,
    [utm_source], [utm_medium], [utm_campaign], [utm_term] and
    [utm_content] are all absent from the extracted visit context; only
    the [$initial_utm_*] block defaults to "organic". *)
Theorem visit_current_utm_not_defaulted :
  forall (url_hostname : string -> option string) (form_decode : string -> string)
         (p : Ph) (flag : bool) (vp : obj),
  no_utm form_decode (search p) ->
  getVisitInfo url_hostname form_decode p flag = Some vp ->
  Forall (fun n => obj_get n vp = None) utm_names.
Proof.
  intros uh fd p flag vp Hno Hv.
  apply getVisitInfo_Some in Hv as [ri [_ ->]].
  rewrite (getUTMTags_no_utm fd (search p) flag Hno).
  unfold utm_names.
  repeat constructor; rewrite obj_get_remove by apply nodup_lit;
    rewrite obj_get_lit; destruct flag; reflexivity.
Qed.

Lemma visit_current_utm_not_defaulted_witness :
  no_utm (fun s => s) (search example_ph) /\
  getVisitInfo example_url_hostname (fun s => s) example_ph true <> None /\
  Forall (fun n => obj_get n
           (from_option id [] (getVisitInfo example_url_hostname (fun s => s) example_ph true)) = None)
         utm_names.
Proof.
  split; [unfold no_utm; repeat constructor|].
  split; [discriminate|].
  apply (visit_current_utm_not_defaulted example_url_hostname (fun s => s) example_ph true).
  - unfold no_utm; repeat constructor.
  - reflexivity.
Defined.

(** C6 counterexample: a new visitor's first page view without UTM
    parameters gets no [utm_source] at all in its visit context, not
    "organic". *)
Lemma visit_current_utm_default_counterexample :
  classify_session ∅ = NewVisitor /\
  exists vp, getVisitInfo example_url_hostname (fun s => s) example_ph
               (isInitialSession ∅) = Some vp /\
             obj_get "utm_source" vp = None /\
             obj_get "utm_source" vp <> Some (JStr "organic").
Proof.
  split; [reflexivity|].
  eexists. split; [reflexivity|]. split; [reflexivity|discriminate].
Qed.

(** C10: the visit-context extractor fails exactly when the referrer is
    non-empty and [new URL] refuses it, and that failure propagates: the
    event and page handlers fail with it. A non-empty parseable referrer
    is kept literally with its hostname as [$referring_domain]; an empty
    referrer leaves both keys out, without error. *)
Theorem visit_referrer_errors_and_domain :
  forall (url_hostname : string -> option string) (form_decode : string -> string),
  (forall (p : Ph) (flag : bool),
     getVisitInfo url_hostname form_decode p flag = None <->
     referrer p <> "" /\ url_hostname (referrer p) = None) /\
  (forall (p : Ph) (flag : bool) (vp : obj) (h : string),
     referrer p <> "" -> url_hostname (referrer p) = Some h ->
     getVisitInfo url_hostname form_decode p flag = Some vp ->
     obj_get "$referrer" vp = Some (JStr (referrer p)) /\
     obj_get "$referring_domain" vp = Some (JStr h)) /\
  (forall (p : Ph) (flag : bool),
     referrer p = "" ->
     exists vp, getVisitInfo url_hostname form_decode p flag = Some vp /\
     obj_get "$referrer" vp = None /\ obj_get "$referring_domain" vp = None) /\
  (forall (req : Request) (gen_anon gen_sess : string),
     referrer (ph (body req)) <> "" -> url_hostname (referrer (ph (body req))) = None ->
     handle_event url_hostname form_decode req gen_anon gen_sess = None /\
     handle_page url_hostname form_decode req gen_anon gen_sess = None).
Proof.
  intros uh fd.
  assert (Hnone : forall (p : Ph) (flag : bool),
            getVisitInfo uh fd p flag = None <->
            referrer p <> "" /\ uh (referrer p) = None).
  { intros p flag. unfold getVisitInfo, getReferrerInfo. simpl.
    destruct (String.eqb (referrer p) "") eqn:E; simpl.
    - apply String.eqb_eq in E. split; [discriminate|]. intros [H _]. contradiction.
    - apply String.eqb_neq in E.
      destruct (uh (referrer p)); split; try discriminate; auto.
      intros [_ H]; discriminate. }
  split; [exact Hnone|]. split; [|split].
  - intros p flag vp h Hne Hh Hv.
    split;
      [ destruct (getVisitInfo_get_head uh fd p flag vp "$referrer" Hv) as [ri [Hri ->]]
      | destruct (getVisitInfo_get_head uh fd p flag vp "$referring_domain" Hv) as [ri [Hri ->]]];
      try (simpl; intuition discriminate);
      unfold getReferrerInfo in Hri; simpl in Hri;
      apply String.eqb_neq in Hne; rewrite Hne, Hh in Hri; simpl in Hri;
      injection Hri as <-; reflexivity.
  - intros p flag He.
    destruct (getVisitInfo uh fd p flag) as [vp|] eqn:Hv.
    + exists vp. split; [reflexivity|].
      split;
        [ destruct (getVisitInfo_get_head uh fd p flag vp "$referrer" Hv) as [ri [Hri ->]]
        | destruct (getVisitInfo_get_head uh fd p flag vp "$referring_domain" Hv) as [ri [Hri ->]]];
        try (simpl; intuition discriminate);
        unfold getReferrerInfo in Hri; rewrite He in Hri; simpl in Hri;
        injection Hri as <-; reflexivity.
    + apply Hnone in Hv as [Hne _]. contradiction.
  - intros req ga gs Hne Hu. split.
    + unfold handle_event.
      rewrite (proj2 (Hnone (ph (body req)) false) (conj Hne Hu)). reflexivity.
    + unfold handle_page.
      rewrite (proj2 (Hnone (ph (body req)) (isInitialSession (cookies req))) (conj Hne Hu)).
      reflexivity.
Qed.

Lemma visit_referrer_errors_and_domain_witness :
  obj_get "$referring_domain"
    (from_option id [] (getVisitInfo example_url_hostname (fun s => s) example_ph_ref false))
    = Some (JStr "google.com") /\
  handle_event example_url_hostname (fun s => s) example_request_bad_ref
    example_gen_anon example_gen_sess = None.
Proof.
  destruct (visit_referrer_errors_and_domain example_url_hostname (fun s => s))
    as (_ & H2 & _ & H4).
  split.
  - apply (H2 example_ph_ref false _ "google.com"); [discriminate|reflexivity|reflexivity].
  - apply (H4 example_request_bad_ref example_gen_anon example_gen_sess);
      [discriminate|reflexivity].
Defined.

Ltac in_concrete_then tac :=
  repeat match goal with
         | H : In _ (_ :: _) |- _ => destruct H as [<-|H]
         | H : In _ [] |- _ => destruct H
         end; tac.

Lemma visit_keys_no_entry :
  List.Forall (fun k => includes k "entry_" = false) visit_keys.
Proof. unfold visit_keys. repeat constructor. Qed.

(** The page handler's [hasActiveSession] is [!!req.cookies.session_id]. *)
Lemma hasActiveSession_spec (c : gmap string string) :
  hasActiveSession c = true <-> exists s, c !! "session_id" = Some s /\ s <> "".
Proof.
  unfold hasActiveSession, truthy_opt, of_opt, truthy.
  destruct (c !! "session_id") as [s|]; split.
  - intros H. exists s. split; [reflexivity|]. intros ->. discriminate.
  - intros (s' & [= <-] & Hne). destruct (String.eqb_spec s ""); [contradiction|reflexivity].
  - discriminate.
  - intros (s' & H & _). discriminate.
Qed.

(** C1 (amended): the page-view composition adds the entry-attribution
    block exactly when the [session_id] cookie is absent or empty (the
    code tests [!!req.cookies.session_id]): a page view whose
    [session_id] cookie is absent or empty carries all nine [$entry_*]
    keys (URL and pathname those of the page); one with a non-empty
    [session_id] cookie carries no key containing "entry_". A page leave
    never carries such a key and sets [$exit_current_url] and
    [$exit_pathname] to the page's URL and pathname. A custom event
    carries such a key only when its [custom_properties] set it. *)
Theorem entry_attribution_only_on_sessionless_pageview :
  forall (url_hostname : string -> option string) (form_decode : string -> string),
  (forall (req : Request) (gen_anon gen_sess : string) (o : Outcome),
     handle_page url_hostname form_decode req gen_anon gen_sess = Some o ->
     exists e, calls o = [Capture e] /\
       (cookies req !! "session_id" = None \/ cookies req !! "session_id" = Some "" ->
          obj_get "$entry_current_url" (properties e) = Some (JStr (page_url (body req))) /\
          obj_get "$entry_pathname" (properties e) = Some (pathname (body req)) /\
          List.Forall (fun k => is_Some (obj_get k (properties e))) entry_keys) /\
       (forall s, cookies req !! "session_id" = Some s -> s <> "" ->
          List.Forall (fun k => includes k "entry_" = false) (map fst (properties e)))) /\
  (forall (req : Request) (gen_anon gen_sess : string) (o : Outcome),
     handle_pageleave url_hostname req gen_anon gen_sess = Some o ->
     exists e, calls o = [Capture e] /\
       List.Forall (fun k => includes k "entry_" = false) (map fst (properties e)) /\
       obj_get "$exit_current_url" (properties e) = Some (JStr (page_url (body req))) /\
       obj_get "$exit_pathname" (properties e) = Some (pathname (body req)) /\
       obj_get "$current_url" (properties e) = Some (JStr (page_url (body req))) /\
       obj_get "$pathname" (properties e) = Some (pathname (body req))) /\
  (forall (req : Request) (gen_anon gen_sess : string) (o : Outcome),
     handle_event url_hostname form_decode req gen_anon gen_sess = Some o ->
     exists e, calls o = [Capture e] /\
       List.Forall (fun k => includes k "entry_" = true ->
                             In k (map fst (custom_properties (body req))))
         (map fst (properties e))).
Proof.
  intros uh fd. split; [|split].
  - intros req ga gs o H. unfold handle_page in H.
    destruct (getVisitInfo uh fd (ph (body req)) (isInitialSession (cookies req)))
      as [vp|] eqn:Hv; [|discriminate].
    destruct (uh (page_url (body req))) as [hn|]; [|discriminate].
    injection H as <-. eexists. split; [reflexivity|]. cbn [properties].
    destruct (hasActiveSession (cookies req)) eqn:Ha; simpl negb; simpl spread_if.
    + apply hasActiveSession_spec in Ha as (s0 & Hs0 & Hne0).
      split; [intros [Hc|Hc]; rewrite Hs0 in Hc; congruence|]. intros s Hs Hne.
      apply List.Forall_forall. intros x Hx.
      apply keys_lit in Hx. simpl in Hx.
      repeat (destruct Hx as [<-|Hx]; [reflexivity|]).
      rewrite app_nil_r in Hx.
      apply (getVisitInfo_keys _ _ _ _ _ _ Hv) in Hx.
      exact (proj1 (List.Forall_forall _ _) visit_keys_no_entry x Hx).
    + split; [intros _|intros s Hs Hne; exfalso;
                apply (proj2 (Bool.not_true_iff_false _) Ha), hasActiveSession_spec; eauto].
      rewrite !obj_get_lit. cbn [fold_left]. rewrite !fold_left_app.
      split; [reflexivity|]. split; [reflexivity|].
      unfold entry_keys. repeat apply List.Forall_cons; try apply List.Forall_nil;
        rewrite obj_get_lit; cbn [fold_left]; rewrite fold_left_app;
        eexists; reflexivity.
  - intros req ga gs o H. unfold handle_pageleave in H.
    destruct (uh (page_url (body req))) as [hn|]; [|discriminate].
    injection H as <-. eexists. split; [reflexivity|]. cbn [properties].
    split; [repeat constructor|].
    rewrite !obj_get_lit. repeat split; reflexivity.
  - intros req ga gs o H. unfold handle_event in H.
    destruct (getVisitInfo uh fd (ph (body req)) false) as [vp|] eqn:Hv; [|discriminate].
    destruct (uh (page_url (body req))) as [hn|]; [|discriminate].
    injection H as <-. eexists. split; [reflexivity|]. cbn [properties].
    apply List.Forall_forall. intros x Hx Hentry.
    apply keys_lit in Hx. simpl in Hx.
    repeat (destruct Hx as [<-|Hx]; [discriminate|]).
    rewrite map_app in Hx. apply in_app_or in Hx as [Hx|Hx].
    + apply (getVisitInfo_keys _ _ _ _ _ _ Hv) in Hx.
      rewrite (proj1 (List.Forall_forall _ _) visit_keys_no_entry x Hx) in Hentry.
      discriminate.
    + exact Hx.
Qed.

Lemma entry_attribution_only_on_sessionless_pageview_witness :
  exists o e,
    handle_page example_url_hostname (fun s => s) (example_request ∅)
      example_gen_anon example_gen_sess = Some o /\
    calls o = [Capture e] /\
    obj_get "$entry_current_url" (properties e) = Some (JStr "https://example.com/pricing").
Proof.
  destruct (entry_attribution_only_on_sessionless_pageview example_url_hostname (fun s => s))
    as [H1 _].
  destruct (H1 (example_request ∅) example_gen_anon example_gen_sess _ eq_refl)
    as [e [Hc [Hn _]]].
  eexists. exists e. split; [reflexivity|]. split; [exact Hc|].
  apply Hn. left. reflexivity.
Defined.

(** C1 counterexample: a page view whose [session_id] cookie is present
    but empty still carries [$entry_current_url], and a tracked event
    whose [custom_properties] hold [$entry_pathname] carries that key. *)
Lemma entry_keys_with_session_cookie_counterexample :
  (exists o e,
     handle_page example_url_hostname (fun s => s) (example_request (<["session_id":=""]> ∅))
       example_gen_anon example_gen_sess = Some o /\
     calls o = [Capture e] /\
     obj_get "$entry_current_url" (properties e) = Some (JStr "https://example.com/pricing")) /\
  (exists o e,
     handle_event example_url_hostname (fun s => s)
       {| cookies := ∅; headers := example_headers;
          body := {| action := "signup_clicked"; page_url := "https://example.com/pricing";
                     page_title := JStr "Pricing"; pathname := JStr "/pricing";
                     ph := example_ph; custom_properties := [("$entry_pathname", JStr "/")];
                     body_user_id := "user_1"; body_organization_slug := None;
                     body_project_ref := None; reset_organization := JBool false;
                     reset_project := JBool false |} |}
       example_gen_anon example_gen_sess = Some o /\
     calls o = [Capture e] /\ obj_get "$entry_pathname" (properties e) = Some (JStr "/")).
Proof.
  split; do 2 eexists; (split; [vm_compute; reflexivity|]); (split; [reflexivity|]);
    vm_compute; reflexivity.
Qed.

(** Without UTM parameters, the UTM and initial-UTM keys of the visit
    context are those of the fixed tag object. *)
Lemma getVisitInfo_no_utm_get uh fd p flag vp k :
  no_utm fd (search p) ->
  getVisitInfo uh fd p flag = Some vp ->
  In k (utm_names ++ initial_names) ->
  obj_get k vp =
  match obj_get k
          (obj_lit ([("utm_source", JNull); ("utm_medium", JNull); ("utm_campaign", JNull);
                     ("utm_term", JNull); ("utm_content", JNull)] ++
                    spread_if flag
                      [("$initial_utm_source", JStr "organic");
                       ("$initial_utm_medium", JStr "organic");
                       ("$initial_utm_campaign", JStr "organic");
                       ("$initial_utm_term", JNull); ("$initial_utm_content", JNull)]))
  with Some JUndef | Some JNull => None | x => x end.
Proof.
  intros Hno Hv Hk. apply getVisitInfo_Some in Hv as [ri [_ ->]].
  rewrite (getUTMTags_no_utm fd (search p) flag Hno).
  rewrite obj_get_remove by apply nodup_lit.
  rewrite obj_get_lit, fold_left_app, fold_last_assign_nodup by apply nodup_lit.
  rewrite fold_last_assign_absent.
  - destruct (obj_get k _); reflexivity.
  - simpl in Hk |- *. intros Hin. intuition (subst; discriminate).
Qed.

Lemma new_visitor_flags (c : gmap string string) :
  classify_session c = NewVisitor ->
  isInitialSession c = true /\ hasActiveSession c = false.
Proof.
  unfold classify_session.
  destruct (hasActiveSession c), (isInitialSession c); intros H; try discriminate; auto.
Qed.

Definition entry_utm_keys : list string :=
  ["$entry_utm_source"; "$entry_utm_medium"; "$entry_utm_campaign";
   "$entry_utm_term"; "$entry_utm_content"].

(** C2 (amended): for a new visitor's page view whose query has no UTM
    parameter, the visit context's initial block has
    [$initial_utm_source], [$initial_utm_medium] and
    [$initial_utm_campaign] equal to "organic" and no
    [$initial_utm_term] or [$initial_utm_content]; the composed page
    view's [$entry_utm_*] keys copy the current (undefaulted) UTM values
    and so all read [undefined]. *)
Theorem new_visitor_initial_utm_defaults :
  forall (url_hostname : string -> option string) (form_decode : string -> string)
         (req : Request) (gen_anon gen_sess : string) (o : Outcome),
  classify_session (cookies req) = NewVisitor ->
  no_utm form_decode (search (ph (body req))) ->
  handle_page url_hostname form_decode req gen_anon gen_sess = Some o ->
  exists e, calls o = [Capture e] /\
    obj_get "$initial_utm_source" (properties e) = Some (JStr "organic") /\
    obj_get "$initial_utm_medium" (properties e) = Some (JStr "organic") /\
    obj_get "$initial_utm_campaign" (properties e) = Some (JStr "organic") /\
    obj_get "$initial_utm_term" (properties e) = None /\
    obj_get "$initial_utm_content" (properties e) = None /\
    List.Forall (fun k => obj_read k (properties e) = JUndef) entry_utm_keys.
Proof.
  intros uh fd req ga gs o Hnv Hno H.
  destruct (new_visitor_flags _ Hnv) as [Hinit Hact].
  unfold handle_page in H. rewrite Hinit, Hact in H.
  destruct (getVisitInfo uh fd (ph (body req)) true) as [vp|] eqn:Hv; [|discriminate].
  destruct (uh (page_url (body req))) as [hn|]; [|discriminate].
  injection H as <-. eexists. split; [reflexivity|]. cbn [properties].
  pose proof (getVisitInfo_nodup _ _ _ _ _ Hv) as Hnd.
  pose proof (fun k => getVisitInfo_no_utm_get uh fd _ true vp k Hno Hv) as Hget.
  repeat split;
    try match goal with
        | |- obj_get ?k _ = _ =>
            rewrite obj_get_lit; cbn [fold_left];
            rewrite fold_left_app, (fold_last_assign_nodup k vp _ Hnd),
              (Hget k) by (simpl; tauto);
            reflexivity
        end.
  unfold entry_utm_keys.
  repeat apply List.Forall_cons; try apply List.Forall_nil;
    unfold obj_read at 1; rewrite obj_get_lit; cbn [fold_left]; rewrite fold_left_app;
    simpl; unfold obj_read;
    match goal with
    | |- context [obj_get ?n vp] => rewrite (Hget n) by (simpl; tauto)
    end; reflexivity.
Qed.

Lemma new_visitor_initial_utm_defaults_witness :
  exists o e,
    handle_page example_url_hostname (fun s => s) (example_request ∅)
      example_gen_anon example_gen_sess = Some o /\
    calls o = [Capture e] /\
    obj_get "$initial_utm_campaign" (properties e) = Some (JStr "organic").
Proof.
  assert (Hnv : classify_session (cookies (example_request ∅)) = NewVisitor)
    by reflexivity.
  assert (Hno : no_utm (fun s => s) (search (ph (body (example_request ∅)))))
    by (unfold no_utm; repeat constructor).
  destruct (new_visitor_initial_utm_defaults example_url_hostname (fun s => s)
              (example_request ∅) example_gen_anon example_gen_sess _ Hnv Hno eq_refl)
    as [e (Hc & _ & _ & Hcamp & _)].
  eexists. exists e. split; [reflexivity|]. split; [exact Hc|exact Hcamp].
Defined.

(** C2 counterexample: on a new visitor's first page view without UTM
    parameters, the composed [$entry_utm_source] is [undefined], not
    "organic". *)
Lemma entry_utm_source_default_counterexample :
  classify_session ∅ = NewVisitor /\
  exists o e,
    handle_page example_url_hostname (fun s => s) (example_request ∅)
      example_gen_anon example_gen_sess = Some o /\
    calls o = [Capture e] /\
    obj_read "$entry_utm_source" (properties e) = JUndef /\
    obj_read "$entry_utm_source" (properties e) <> JStr "organic".
Proof.
  split; [reflexivity|].
  do 2 eexists. split; [reflexivity|]. split; [reflexivity|].
  split; [reflexivity|discriminate].
Qed.

Lemma page_ip_not_in_visit uh fd p flag vp :
  getVisitInfo uh fd p flag = Some vp -> ~ In "$ip" (map fst vp).
Proof.
  intros Hv Hin. apply (getVisitInfo_keys _ _ _ _ _ _ Hv) in Hin.
  simpl in Hin. intuition discriminate.
Qed.

(** C3 (as the code behaves): the page handler's host test
    [(req.headers.host === 'localhost' || '127.0.0.1')] is always
    truthy, so every composed page view carries [$ip: undefined],
    whatever the Host, [X-Forwarded-For] and remote address. *)
Theorem page_ip_always_undefined :
  forall (url_hostname : string -> option string) (form_decode : string -> string)
         (req : Request) (gen_anon gen_sess : string) (o : Outcome),
  handle_page url_hostname form_decode req gen_anon gen_sess = Some o ->
  exists e, calls o = [Capture e] /\ obj_get "$ip" (properties e) = Some JUndef.
Proof.
  intros uh fd req ga gs o H. unfold handle_page in H.
  destruct (getVisitInfo uh fd (ph (body req)) (isInitialSession (cookies req)))
    as [vp|] eqn:Hv; [|discriminate].
  destruct (uh (page_url (body req))) as [hn|]; [|discriminate].
  injection H as <-. eexists. split; [reflexivity|]. cbn [properties].
  rewrite obj_get_lit. cbn [fold_left].
  rewrite fold_left_app, (fold_last_assign_absent _ vp _ (page_ip_not_in_visit _ _ _ _ _ Hv)).
  destruct (hasActiveSession (cookies req));
    destruct (bool_decide (host (headers req) = Some "localhost")); reflexivity.
Qed.

(** Evaluated on a public host behind a proxy: [$ip] is [undefined]
    although [X-Forwarded-For] is "203.0.113.7". *)
Lemma page_ip_always_undefined_witness :
  x_forwarded_for (headers (example_request ∅)) = Some "203.0.113.7" /\
  host (headers (example_request ∅)) = Some "example.com" /\
  exists o e,
    handle_page example_url_hostname (fun s => s) (example_request ∅)
      example_gen_anon example_gen_sess = Some o /\
    calls o = [Capture e] /\ obj_get "$ip" (properties e) = Some JUndef.
Proof.
  split; [reflexivity|]. split; [reflexivity|].
  destruct (page_ip_always_undefined example_url_hostname (fun s => s)
              (example_request ∅) example_gen_anon example_gen_sess _ eq_refl)
    as [e [Hc Hip]].
  eexists. exists e. split; [reflexivity|]. split; [exact Hc|exact Hip].
Defined.

(** C4 (amended): the event and page handlers end with the same cookie
    directives: [session_id] for 30 minutes (1 800 000 ms),
    [anonymous_id] for a year (31 536 000 000 ms), [user_id] when set
    for 30 minutes, and [organization_slug] and [project_ref] when set
    for a year. *)
Theorem per_event_cookie_max_ages :
  forall (url_hostname : string -> option string) (form_decode : string -> string)
         (req : Request) (gen_anon gen_sess : string) (o : Outcome),
  handle_event url_hostname form_decode req gen_anon gen_sess = Some o \/
  handle_page url_hostname form_decode req gen_anon gen_sess = Some o ->
  let ids := getIdsFromCookies (cookies req) gen_anon gen_sess in
  directives o =
    [SetCookie "session_id" (session_id ids) 1800000;
     SetCookie "anonymous_id" (anonymous_id ids) 31536000000] ++
    cookie_if "user_id" (user_id ids) 1800000 ++
    cookie_if "organization_slug" (organization_slug ids) 31536000000 ++
    cookie_if "project_ref" (project_ref ids) 31536000000.
Proof.
  intros uh fd req ga gs o [H|H]; [unfold handle_event in H|unfold handle_page in H];
    repeat match type of H with
           | context [match ?m with Some _ => _ | None => _ end] =>
               destruct m; [|discriminate]
           end;
    injection H as <-; reflexivity.
Qed.

Lemma per_event_cookie_max_ages_witness :
  exists o,
    handle_event example_url_hostname (fun s => s)
      (example_request (<["organization_id":="org_1"]> ∅))
      example_gen_anon example_gen_sess = Some o /\
    In (SetCookie "organization_slug" "org_1" 31536000000) (directives o).
Proof.
  eexists. split; [reflexivity|].
  rewrite (per_event_cookie_max_ages example_url_hostname (fun s => s)
             (example_request (<["organization_id":="org_1"]> ∅))
             example_gen_anon example_gen_sess _ (or_introl eq_refl)).
  vm_compute. intuition.
Defined.

(** C4 counterexample: an event request carrying an [organization_id]
    cookie gets its [organization_slug] cookie for a year, not for
    about 30 minutes. *)
Lemma per_event_org_cookie_counterexample :
  exists o,
    handle_event example_url_hostname (fun s => s)
      (example_request (<["organization_id":="org_1"]> ∅))
      example_gen_anon example_gen_sess = Some o /\
    In (SetCookie "organization_slug" "org_1" YEAR_IN_MS) (directives o) /\
    (forall v m, In (SetCookie "organization_slug" v m) (directives o) -> m = YEAR_IN_MS) /\
    (YEAR_IN_MS > 1000 * THIRTY_MIN_IN_MS)%Z.
Proof.
  eexists. split; [reflexivity|]. split; [vm_compute; intuition|]. split.
  - intros v m Hin. vm_compute in Hin |- *. intuition congruence.
  - reflexivity.
Qed.

Lemma cookie_if_name n v m d : In d (cookie_if n v m) -> directive_name d = n.
Proof.
  unfold cookie_if. destruct v as [s|]; [destruct (truthy (JStr s))|]; simpl;
    intros H; intuition (subst; reflexivity).
Qed.

(** The cookie names any handler writes or clears. *)
Definition written_cookie_names : list string :=
  ["user_id"; "organization_slug"; "project_ref"; "anonymous_id"; "session_id"].

Lemma handle_directive_names uh fd r req ga gs o d :
  handle uh fd r req ga gs = Some o -> In d (directives o) ->
  In (directive_name d) written_cookie_names.
Proof.
  intros H Hd.
  destruct r; simpl in H;
    [ unfold handle_feature_flags in H | unfold handle_feature_flags_track in H
    | unfold handle_identify in H | unfold handle_reset in H
    | unfold handle_groups_identify in H | unfold handle_groups_reset in H
    | unfold handle_event in H | unfold handle_page in H | unfold handle_pageleave in H ];
    repeat match type of H with
           | context [match ?m with Some _ => _ | None => _ end] =>
               destruct m; [|try discriminate]
           | context [if ?b then _ else _] => destruct b
           end;
    injection H as <-; cbn [directives] in Hd;
    repeat match type of Hd with
           | False => destruct Hd
           | In _ (if ?b then _ else _) => destruct b
           | In _ (per_event_cookies _) => unfold per_event_cookies in Hd
           | In _ (_ ++ _) => apply in_app_or in Hd as [Hd|Hd]
           | In _ (cookie_if ?n _ _) => apply cookie_if_name in Hd; rewrite Hd; simpl; tauto
           | In _ (_ :: _) => destruct Hd as [<-|Hd]; [simpl; tauto|]
           | In _ [] => destruct Hd
           end.
Qed.

(** C5: the identity resolver reads the group cookies [organization_id]
    and [project_id], while every cookie directive of every route writes
    or clears only [user_id], [organization_slug], [project_ref],
    [anonymous_id] and [session_id]. So in any cookie jar built from an
    empty one by the responses to any sequence of requests, the resolver
    finds no organization and no project: the group identity written as
    cookies is never read back. *)
Theorem group_cookies_never_read_back :
  forall (url_hostname : string -> option string) (form_decode : string -> string),
  (forall (r : Route) (req : Request) (gen_anon gen_sess : string) (o : Outcome)
          (d : CookieDirective),
     handle url_hostname form_decode r req gen_anon gen_sess = Some o ->
     In d (directives o) ->
     directive_name d <> "organization_id" /\ directive_name d <> "project_id") /\
  (forall (vs : list Visit) (gen_anon gen_sess : string),
     let ids := getIdsFromCookies (run url_hostname form_decode ∅ vs) gen_anon gen_sess in
     organization_slug ids = None /\ project_ref ids = None).
Proof.
  intros uh fd.
  assert (Hnames : forall r req ga gs o d,
            handle uh fd r req ga gs = Some o -> In d (directives o) ->
            directive_name d <> "organization_id" /\ directive_name d <> "project_id").
  { intros r req ga gs o d H Hd.
    pose proof (handle_directive_names _ _ _ _ _ _ _ _ H Hd) as Hn.
    simpl in Hn. split; intros He; rewrite He in Hn; intuition discriminate. }
  split; [exact Hnames|].
  assert (Hdir : forall (jar : gmap string string) d,
            directive_name d <> "organization_id" -> directive_name d <> "project_id" ->
            jar !! "organization_id" = None -> jar !! "project_id" = None ->
            apply_directive jar d !! "organization_id" = None /\
            apply_directive jar d !! "project_id" = None).
  { intros jar [n v m|n] H1 H2 Ho Hp; simpl in *.
    - rewrite !lookup_insert_ne by congruence. auto.
    - rewrite !lookup_delete_ne by congruence. auto. }
  assert (Hds : forall ds (jar : gmap string string),
            (forall d, In d ds ->
               directive_name d <> "organization_id" /\ directive_name d <> "project_id") ->
            jar !! "organization_id" = None -> jar !! "project_id" = None ->
            fold_left apply_directive ds jar !! "organization_id" = None /\
            fold_left apply_directive ds jar !! "project_id" = None).
  { induction ds as [|d ds IH]; intros jar Hall Ho Hp; simpl; [auto|].
    destruct (Hall d (or_introl eq_refl)) as [H1 H2].
    destruct (Hdir jar d H1 H2 Ho Hp) as [Ho' Hp'].
    apply IH; auto. intros d' Hd'. apply Hall. right. exact Hd'. }
  assert (Hstep : forall (jar : gmap string string) v,
            jar !! "organization_id" = None -> jar !! "project_id" = None ->
            step uh fd jar v !! "organization_id" = None /\
            step uh fd jar v !! "project_id" = None).
  { intros jar v Ho Hp. unfold step.
    destruct (handle uh fd (v_route v) _ _ _) as [o|] eqn:H; [|auto].
    destruct (status o); [|auto].
    unfold apply_directives.
    apply Hds; auto. intros d. apply (Hnames _ _ _ _ _ d H). }
  intros vs ga gs. unfold run.
  assert (Hinv : forall (jar : gmap string string),
            jar !! "organization_id" = None -> jar !! "project_id" = None ->
            fold_left (step uh fd) vs jar !! "organization_id" = None /\
            fold_left (step uh fd) vs jar !! "project_id" = None).
  { induction vs as [|v vs IH]; intros jar Ho Hp; simpl; [auto|].
    destruct (Hstep jar v Ho Hp). apply IH; auto. }
  destruct (Hinv ∅ (lookup_empty _) (lookup_empty _)) as [Ho Hp].
  simpl. rewrite Ho, Hp. auto.
Qed.

Lemma group_cookies_never_read_back_witness :
  run example_url_hostname (fun s => s) ∅ example_trace !! "organization_slug" = Some "org_1" /\
  directive_name (SetCookie "organization_slug" "org_1" YEAR_IN_MS) <> "organization_id" /\
  organization_slug
    (getIdsFromCookies (run example_url_hostname (fun s => s) ∅ example_trace)
       example_gen_anon example_gen_sess) = None.
Proof.
  destruct (group_cookies_never_read_back example_url_hostname (fun s => s)) as [H1 H2].
  split; [vm_compute; reflexivity|]. split.
  - apply (H1 IdentifyRoute (example_request ∅) example_gen_anon example_gen_sess _ _ eq_refl).
    vm_compute. intuition.
  - apply (H2 example_trace example_gen_anon example_gen_sess).
Defined.

(** C7 (as the code behaves): the OS branches for Windows and macOS set
    [osVersion], but the Android and iOS branches assign the extracted
    version to [os] a second time: an Android user agent without
    "Linux" yields [os = "13.0"] and no [osVersion], an iPad one
    [os = "16_1"] and no [osVersion], while a Windows one yields
    [os = "Windows"], [osVersion = "10.0"]. *)
Lemma android_ios_version_lands_in_os :
  getDeviceAndOS "Mozilla/5.0 (Android 13.0; Mobile)" =
    {| deviceType := Some "Mobile"; os := Some "13.0"; osVersion := None |} /\
  getDeviceAndOS "Mozilla/5.0 (iPad; OS 16_1)" =
    {| deviceType := Some "Desktop"; os := Some "16_1"; osVersion := None |} /\
  getDeviceAndOS example_ua =
    {| deviceType := Some "Desktop"; os := Some "Windows"; osVersion := Some "10.0" |}.
Proof. split; [|split]; vm_compute; reflexivity. Qed.

(** C8 (amended): the resolver keeps the [anonymous_id] cookie whenever
    it is present, even when it is the empty string, and uses the
    generated identifier only when the cookie is absent; [session_id]
    follows the same rule independently. Both fields are thus always
    defined, and non-empty unless the cookie itself is present and
    empty (generated identifiers being non-empty). *)
Theorem resolver_keeps_present_cookie :
  forall (cookies : gmap string string) (gen_anon gen_sess : string),
  gen_anon <> "" -> gen_sess <> "" ->
  let ids := getIdsFromCookies cookies gen_anon gen_sess in
  (forall v, cookies !! "anonymous_id" = Some v -> anonymous_id ids = v) /\
  (cookies !! "anonymous_id" = None -> anonymous_id ids = gen_anon) /\
  (forall v, cookies !! "session_id" = Some v -> session_id ids = v) /\
  (cookies !! "session_id" = None -> session_id ids = gen_sess) /\
  (cookies !! "anonymous_id" <> Some "" -> anonymous_id ids <> "") /\
  (cookies !! "session_id" <> Some "" -> session_id ids <> "").
Proof.
  intros c ga gs Ha Hs ids. subst ids. unfold getIdsFromCookies. cbn [anonymous_id session_id].
  repeat split.
  - intros v ->. reflexivity.
  - intros ->. reflexivity.
  - intros v ->. reflexivity.
  - intros ->. reflexivity.
  - destruct (c !! "anonymous_id"); simpl; congruence.
  - destruct (c !! "session_id"); simpl; congruence.
Qed.

Lemma resolver_keeps_present_cookie_witness :
  anonymous_id (getIdsFromCookies ∅ example_gen_anon example_gen_sess) = example_gen_anon /\
  session_id (getIdsFromCookies ∅ example_gen_anon example_gen_sess) <> "".
Proof.
  assert (Ha : example_gen_anon <> "") by discriminate.
  assert (Hs : example_gen_sess <> "") by discriminate.
  destruct (resolver_keeps_present_cookie ∅ example_gen_anon example_gen_sess Ha Hs)
    as (_ & H2 & _ & _ & _ & H6).
  split; [apply H2; reflexivity|apply H6; discriminate].
Defined.

(** C8 counterexample: an empty [anonymous_id] cookie is kept, so the
    resolved [anonymous_id] is empty. *)
Lemma empty_anonymous_cookie_counterexample :
  anonymous_id (getIdsFromCookies (<["anonymous_id":=""]> ∅)
                  example_gen_anon example_gen_sess) = "".
Proof. reflexivity. Qed.

(** The project sub-list of [groups_field], as read from the cookies. *)
Lemma groups_field_org (o : string) (p : option string) :
  o <> "" ->
  groups_field (Some o) p =
    Some (("organization", o) ::
          match p with
          | Some q => if bool_decide (q = "") then [] else [("project", q)]
          | None => []
          end).
Proof.
  intros Ho. unfold groups_field, truthy.
  destruct (String.eqb_spec o ""); [contradiction|]. cbn [negb].
  destruct p as [q|]; [|reflexivity].
  destruct (String.eqb_spec q ""); case_bool_decide; subst; try contradiction; reflexivity.
Qed.

(** C9 (amended): the event, pageview and pageleave handlers each make
    exactly one capture call; its [groups] field is absent when the
    [organization_id] cookie is absent or empty, and otherwise is
    [organization] with the cookie's value, plus [project] exactly when
    the [project_id] cookie is present and non-empty. The identify
    handler makes no capture call at all, so it composes no [groups]
    field. *)
Theorem capture_groups_gated_by_org_cookie :
  forall (url_hostname : string -> option string) (form_decode : string -> string),
  (forall (r : Route) (req : Request) (gen_anon gen_sess : string) (o : Outcome),
     In r [EventRoute; Page; Pageleave] ->
     handle url_hostname form_decode r req gen_anon gen_sess = Some o ->
     exists e, calls o = [Capture e] /\
       (forall org, cookies req !! "organization_id" = Some org -> org <> "" ->
          groups e =
            Some (("organization", org) ::
                  match cookies req !! "project_id" with
                  | Some q => if bool_decide (q = "") then [] else [("project", q)]
                  | None => []
                  end)) /\
       (cookies req !! "organization_id" = None \/
        cookies req !! "organization_id" = Some "" -> groups e = None)) /\
  (forall (req : Request) (gen_anon gen_sess : string) (o : Outcome),
     handle url_hostname form_decode IdentifyRoute req gen_anon gen_sess = Some o ->
     forall e, ~ In (Capture e) (calls o)).
Proof.
  intros uh fd. split.
  - intros r req ga gs o Hr Hh.
    assert (Hg : forall e, groups e = groups_field (cookies req !! "organization_id")
                                                   (cookies req !! "project_id") ->
              (forall org, cookies req !! "organization_id" = Some org -> org <> "" ->
                 groups e =
                   Some (("organization", org) ::
                         match cookies req !! "project_id" with
                         | Some q => if bool_decide (q = "") then [] else [("project", q)]
                         | None => []
                         end)) /\
              (cookies req !! "organization_id" = None \/
               cookies req !! "organization_id" = Some "" -> groups e = None)).
    { intros e He. split.
      - intros org Horg Hne. rewrite He, Horg. apply groups_field_org; exact Hne.
      - intros [Hn|Hn]; rewrite He, Hn; reflexivity. }
    simpl in Hr. destruct Hr as [<-|[<-|[<-|[]]]]; cbn [handle] in Hh.
    + unfold handle_event in Hh.
      destruct (getVisitInfo _ _ _); [|discriminate].
      destruct (uh (page_url (body req))); [|discriminate].
      injection Hh as <-. eexists. split; [reflexivity|]. apply Hg. reflexivity.
    + unfold handle_page in Hh.
      destruct (getVisitInfo _ _ _); [|discriminate].
      destruct (uh (page_url (body req))); [|discriminate].
      injection Hh as <-. eexists. split; [reflexivity|]. apply Hg. reflexivity.
    + unfold handle_pageleave in Hh.
      destruct (uh (page_url (body req))); [|discriminate].
      injection Hh as <-. eexists. split; [reflexivity|]. apply Hg. reflexivity.
  - intros req ga gs o Hh e Hin. cbn [handle] in Hh. unfold handle_identify in Hh.
    injection Hh as <-. cbn [calls] in Hin.
    repeat match type of Hin with
           | context [match ?x with Some _ => _ | None => _ end] => destruct x
           | context [if ?b then _ else _] => destruct b
           end;
      simpl in Hin; repeat (destruct Hin as [Hin|Hin]; [discriminate|]); exact Hin.
Qed.

(** A page view from a visitor whose [organization_id] cookie holds
    "org_1" and who has no [project_id] cookie. *)
Lemma capture_groups_gated_by_org_cookie_witness :
  exists o e,
    handle example_url_hostname (fun s => s) Page
      (example_request (<["organization_id":="org_1"]> ∅))
      example_gen_anon example_gen_sess = Some o /\
    calls o = [Capture e] /\ groups e = Some [("organization", "org_1")].
Proof.
  destruct (capture_groups_gated_by_org_cookie example_url_hostname (fun s => s)) as [H1 _].
  assert (Hr : In Page [EventRoute; Page; Pageleave]) by (simpl; tauto).
  destruct (handle example_url_hostname (fun s => s) Page
              (example_request (<["organization_id":="org_1"]> ∅))
              example_gen_anon example_gen_sess) as [o|] eqn:Ho.
  - destruct (H1 _ _ _ _ o Hr Ho) as (e & Hc & Hs & _).
    exists o, e. split; [reflexivity|]. split; [exact Hc|].
    assert (Horg : (<["organization_id":="org_1"]> ∅ : gmap string string)
                     !! "organization_id" = Some "org_1") by reflexivity.
    rewrite (Hs "org_1" Horg) by discriminate. reflexivity.
  - exfalso. vm_compute in Ho. discriminate.
Defined.

(** C9 counterexample: identifying "user_1" with organization "org_1"
    and no project makes no capture call, hence composes no [groups]
    field; it makes an identify call and an organization group-identify
    call. *)
Lemma identify_has_no_groups_counterexample :
  handle example_url_hostname (fun s => s) IdentifyRoute (example_request ∅)
    example_gen_anon example_gen_sess =
  Some {| calls := [Identify "user_1" [("gotrueId", JStr "user_1")];
                    GroupIdentify "user_1" "organization" "org_1"
                      [("organizationSlug", JStr "org_1")]];
          directives := [SetCookie "user_id" "user_1" YEAR_IN_MS;
                         SetCookie "organization_slug" "org_1" YEAR_IN_MS];
          status := Some 200%Z |}.
Proof. vm_compute. reflexivity. Qed.


(* ------------------------------------------------------------------ *)
(** ** Further properties of the handlers and parsers *)

Lemma lookup_apply_directives jar ds k :
  apply_directives jar ds !! k = fold_left (dir_effect k) ds (jar !! k).
Proof.
  unfold apply_directives. revert jar. induction ds as [|d ds IH]; intros jar; simpl.
  - reflexivity.
  - rewrite IH. f_equal. destruct d as [n v m|n]; simpl;
      [rewrite lookup_insert|rewrite lookup_delete];
      destruct (String.eqb_spec n k); case_decide; congruence.
Qed.

(** X1: a reset response clears the five identity cookies and nothing
    else; the next page view is a new visitor's, with fresh anonymous and
    session identifiers and no user, while the resolved organization and
    project (read from [organization_id] and [project_id]) survive. *)
Theorem reset_forgets_identity :
  forall (url_hostname : string -> option string) (form_decode : string -> string)
         (jar : gmap string string) (h : Headers) (b : Body) (ga gs ga' gs' : string),
  let jar' := step url_hostname form_decode jar
                {| v_route := Reset; v_headers := h; v_body := b;
                   v_gen_anon := ga; v_gen_sess := gs |} in
  (forall k, In k identity_cookie_names -> jar' !! k = None) /\
  (forall k, ~ In k identity_cookie_names -> jar' !! k = jar !! k) /\
  classify_session jar' = NewVisitor /\
  getIdsFromCookies jar' ga' gs' =
    {| organization_slug := jar !! "organization_id";
       project_ref := jar !! "project_id";
       user_id := None; anonymous_id := ga'; session_id := gs' |}.
Proof.
  intros uh fd jar h b ga gs ga' gs' jar'.
  assert (Hj : forall k, jar' !! k =
             fold_left (dir_effect k)
               [ClearCookie "user_id"; ClearCookie "organization_slug";
                ClearCookie "project_ref"; ClearCookie "anonymous_id";
                ClearCookie "session_id"] (jar !! k)).
  { intros k. subst jar'. unfold step.
    cbn [v_route v_headers v_body v_gen_anon v_gen_sess handle handle_reset status directives].
    apply lookup_apply_directives. }
  split; [|split; [|split]].
  - intros k Hk. rewrite Hj. simpl in Hk.
    repeat (destruct Hk as [<-|Hk]; [reflexivity|]). destruct Hk.
  - intros k Hk. rewrite Hj. simpl in Hk. cbn [fold_left dir_effect].
    repeat match goal with
           | |- context [String.eqb ?n k] =>
               destruct (String.eqb_spec n k); [subst; tauto|]
           end. reflexivity.
  - unfold classify_session, hasActiveSession, isInitialSession.
    rewrite !Hj. reflexivity.
  - unfold getIdsFromCookies. rewrite !Hj. reflexivity.
Qed.

(** X2: the feature-flag, feature-flag tracking, groups-identify and
    page-leave routes never change the browser's cookies. The
    groups-identify handler does emit cookie directives, but it never
    sends a response, so they never reach the browser. *)
Theorem read_only_routes_keep_jar :
  forall (url_hostname : string -> option string) (form_decode : string -> string)
         (r : Route) (jar : gmap string string) (h : Headers) (b : Body) (ga gs : string),
  In r [FeatureFlags; FeatureFlagsTrack; GroupsIdentify; Pageleave] ->
  step url_hostname form_decode jar
    {| v_route := r; v_headers := h; v_body := b; v_gen_anon := ga; v_gen_sess := gs |} = jar.
Proof.
  intros uh fd r jar h b ga gs Hr. simpl in Hr.
  destruct Hr as [<-|[<-|[<-|[<-|[]]]]]; unfold step;
    cbn [v_route v_headers v_body v_gen_anon v_gen_sess handle];
    [unfold handle_feature_flags | unfold handle_feature_flags_track
    | unfold handle_groups_identify | unfold handle_pageleave];
    repeat case_match; simplify_eq/=; reflexivity.
Qed.

Lemma read_only_routes_keep_jar_witness :
  step example_url_hostname (fun s => s) example_jar (example_visit Pageleave) = example_jar.
Proof.
  apply (read_only_routes_keep_jar example_url_hostname (fun s => s) Pageleave example_jar
           example_headers example_body example_gen_anon example_gen_sess).
  simpl; tauto.
Defined.

(** X3: a groups-reset response deletes [organization_slug] exactly when
    [reset_organization] is truthy and [project_ref] exactly when
    [reset_project] is truthy, and it never changes the identifiers the
    resolver reads back. *)
Theorem groups_reset_leaves_resolved_ids :
  forall (url_hostname : string -> option string) (form_decode : string -> string)
         (jar : gmap string string) (h : Headers) (b : Body) (ga gs ga' gs' : string),
  let jar' := step url_hostname form_decode jar
                {| v_route := GroupsReset; v_headers := h; v_body := b;
                   v_gen_anon := ga; v_gen_sess := gs |} in
  jar' !! "organization_slug" =
    (if truthy (reset_organization b) then None else jar !! "organization_slug") /\
  jar' !! "project_ref" =
    (if truthy (reset_project b) then None else jar !! "project_ref") /\
  getIdsFromCookies jar' ga' gs' = getIdsFromCookies jar ga' gs'.
Proof.
  intros uh fd jar h b ga gs ga' gs' jar'. subst jar'. unfold step.
  cbn [v_route v_headers v_body v_gen_anon v_gen_sess handle handle_groups_reset
       status directives body].
  unfold getIdsFromCookies. rewrite !lookup_apply_directives.
  destruct (truthy (reset_organization b)), (truthy (reset_project b));
    (split; [|split]); reflexivity.
Qed.



Lemma reset_forgets_identity_witness :
  step example_url_hostname (fun s => s) example_jar (example_visit Reset) !! "session_id" = None /\
  classify_session (step example_url_hostname (fun s => s) example_jar (example_visit Reset))
    = NewVisitor.
Proof.
  destruct (reset_forgets_identity example_url_hostname (fun s => s) example_jar example_headers
              example_body example_gen_anon example_gen_sess example_gen_anon example_gen_sess)
    as (H1 & _ & H3 & _).
  split; [apply H1; simpl; tauto | exact H3].
Defined.

(** X5: after a successful event or page-view response, the resolver
    reads back the anonymous identifier, the session identifier and the
    user the request was handled with: the response persists them. *)
Theorem event_page_persist_identity :
  forall (url_hostname : string -> option string) (form_decode : string -> string)
         (r : Route) (jar : gmap string string) (h : Headers) (b : Body)
         (ga gs ga' gs' : string) (o : Outcome),
  In r [EventRoute; Page] ->
  handle url_hostname form_decode r {| cookies := jar; headers := h; body := b |} ga gs = Some o ->
  anonymous_id (getIdsFromCookies
    (step url_hostname form_decode jar
       {| v_route := r; v_headers := h; v_body := b; v_gen_anon := ga; v_gen_sess := gs |})
    ga' gs') = anonymous_id (getIdsFromCookies jar ga gs) /\
  session_id (getIdsFromCookies
    (step url_hostname form_decode jar
       {| v_route := r; v_headers := h; v_body := b; v_gen_anon := ga; v_gen_sess := gs |})
    ga' gs') = session_id (getIdsFromCookies jar ga gs) /\
  user_id (getIdsFromCookies
    (step url_hostname form_decode jar
       {| v_route := r; v_headers := h; v_body := b; v_gen_anon := ga; v_gen_sess := gs |})
    ga' gs') = user_id (getIdsFromCookies jar ga gs).
Proof.
  intros uh fd r jar h b ga gs ga' gs' o Hr Hh. simpl in Hr.
  unfold step. cbn [v_route v_headers v_body v_gen_anon v_gen_sess]. rewrite Hh.
  destruct Hr as [<-|[<-|[]]]; cbn [handle] in Hh;
    [unfold handle_event in Hh|unfold handle_page in Hh]; cbn [cookies body headers] in Hh;
    repeat match type of Hh with
           | context [match ?x with Some _ => _ | None => _ end] => destruct x; [|discriminate]
           end;
    injection Hh as <-; cbn [status directives];
    cbn [getIdsFromCookies anonymous_id session_id user_id];
    rewrite !lookup_apply_directives; unfold per_event_cookies, cookie_if;
    cbn [getIdsFromCookies anonymous_id session_id user_id organization_slug project_ref];
    repeat case_match; simpl; auto.
Qed.

Lemma event_page_persist_identity_witness :
  exists o,
    handle example_url_hostname (fun s => s) EventRoute (example_request ∅)
      example_gen_anon example_gen_sess = Some o /\
    anonymous_id (getIdsFromCookies
      (step example_url_hostname (fun s => s) ∅ (example_visit EventRoute))
      "other" "other") = example_gen_anon.
Proof.
  assert (Hr : In EventRoute [EventRoute; Page]) by (simpl; tauto).
  destruct (handle example_url_hostname (fun s => s) EventRoute (example_request ∅)
              example_gen_anon example_gen_sess) as [o|] eqn:Ho.
  - exists o. split; [reflexivity|].
    exact (proj1 (event_page_persist_identity example_url_hostname (fun s => s) EventRoute ∅
                    example_headers example_body example_gen_anon example_gen_sess
                    "other" "other" o Hr Ho)).
  - exfalso. vm_compute in Ho. discriminate.
Defined.

Ltac open_handler H :=
  cbn [handle] in H;
  unfold handle_feature_flags, handle_feature_flags_track, handle_identify, handle_reset,
    handle_groups_identify, handle_groups_reset, handle_event, handle_page,
    handle_pageleave in H;
  cbn [cookies body headers] in H;
  repeat match type of H with
         | context [match ?x with Some _ => _ | None => _ end] => destruct x
         | context [if ?c then _ else _] => destruct c
         end;
  simplify_eq.

(** X7: in a tracked event, the request's [custom_properties] override
    every computed property of the same name ([$ip], [$session_id], the
    visit context, ...), since they are spread last. *)
Theorem event_custom_properties_override :
  forall (url_hostname : string -> option string) (form_decode : string -> string)
         (req : Request) (ga gs : string) (o : Outcome),
  handle_event url_hostname form_decode req ga gs = Some o ->
  List.NoDup (map fst (custom_properties (body req))) ->
  exists e, calls o = [Capture e] /\
    forall k v, obj_get k (custom_properties (body req)) = Some v ->
                obj_get k (properties e) = Some v.
Proof.
  intros uh fd req ga gs o Hh Hnd. unfold handle_event in Hh.
  destruct (getVisitInfo uh fd (ph (body req)) false) as [vp|]; [|discriminate].
  destruct (uh (page_url (body req))) as [hn|]; [|discriminate].
  injection Hh as <-. eexists. split; [reflexivity|].
  intros k v Hk. cbn [properties].
  rewrite obj_get_lit. cbn [fold_left app].
  rewrite fold_left_app, fold_last_assign_nodup by exact Hnd.
  rewrite Hk. reflexivity.
Qed.

Lemma event_custom_properties_override_witness :
  exists o e,
    handle_event example_url_hostname (fun s => s)
      {| cookies := ∅; headers := example_headers;
         body := {| action := "signup_clicked"; page_url := "https://example.com/pricing";
                    page_title := JStr "Pricing"; pathname := JStr "/pricing";
                    ph := example_ph; custom_properties := [("$session_id", JStr "custom")];
                    body_user_id := "user_1"; body_organization_slug := None;
                    body_project_ref := None; reset_organization := JBool false;
                    reset_project := JBool false |} |}
      example_gen_anon example_gen_sess = Some o /\
    calls o = [Capture e] /\ obj_get "$session_id" (properties e) = Some (JStr "custom").
Proof.
  match goal with
  | |- exists o e, handle_event ?uh ?fd ?req ?ga ?gs = Some o /\ _ =>
      destruct (handle_event uh fd req ga gs) as [o|] eqn:Ho;
      [|exfalso; vm_compute in Ho; discriminate];
      assert (Hnd : List.NoDup (map fst (custom_properties (body req))))
        by (repeat constructor; simpl; tauto);
      destruct (event_custom_properties_override uh fd req ga gs o Ho Hnd) as (e & Hc & He)
  end.
  exists o, e. split; [reflexivity|]. split; [exact Hc|]. apply He. reflexivity.
Defined.

(** X8: an extracted visit context holds no [undefined] or [null] value
    and no key twice, only keys among the twenty-one it can produce, and
    always the raw user agent and a device type among Mobile, Tablet and
    Desktop. *)
Theorem visit_info_well_formed :
  forall (url_hostname : string -> option string) (form_decode : string -> string)
         (p : Ph) (flag : bool) (vp : obj),
  getVisitInfo url_hostname form_decode p flag = Some vp ->
  (forall k v, In (k, v) vp -> v <> JUndef /\ v <> JNull) /\
  List.NoDup (map fst vp) /\
  (forall k, In k (map fst vp) -> In k visit_keys) /\
  obj_get "$raw_user_agent" vp = Some (JStr (user_agent p)) /\
  exists d, obj_get "$device_type" vp = Some (JStr d) /\ In d ["Mobile"; "Tablet"; "Desktop"].
Proof.
  intros uh fd p flag vp Hv. split; [|split; [|split; [|split]]].
  - intros k v Hin. apply getVisitInfo_Some in Hv as [ri [_ ->]].
    unfold removeUndefinedValues in Hin. apply filter_In in Hin as [_ Hp].
    cbn in Hp. destruct v; try discriminate; split; discriminate.
  - exact (getVisitInfo_nodup _ _ _ _ _ Hv).
  - intros k. exact (getVisitInfo_keys _ _ _ _ _ _ Hv).
  - destruct (getVisitInfo_get_head _ _ _ _ _ "$raw_user_agent" Hv) as [ri [_ ->]].
    + simpl. intuition discriminate.
    + reflexivity.
  - destruct (getVisitInfo_get_head _ _ _ _ _ "$device_type" Hv) as [ri [_ ->]].
    + simpl. intuition discriminate.
    + unfold getDeviceAndOS. cbn [fold_left last_assign fst snd].
      simpl String.eqb. cbv iota.
      destruct (test_i "mobile" (user_agent p)); [|destruct (test_i "tablet" (user_agent p))];
        destruct (includes (user_agent p) "Win"); try destruct (includes (user_agent p) "Mac");
        try destruct (includes (user_agent p) "Linux");
        try destruct (includes (user_agent p) "Android");
        try destruct (includes (user_agent p) "iOS" || includes (user_agent p) "iPhone"
                      || includes (user_agent p) "iPad");
        simpl; eexists; (split; [reflexivity|simpl; tauto]).
Qed.

Lemma visit_info_well_formed_witness :
  exists vp, getVisitInfo example_url_hostname (fun s => s) example_ph true = Some vp /\
             obj_get "$raw_user_agent" vp = Some (JStr example_ua).
Proof.
  destruct (getVisitInfo example_url_hostname (fun s => s) example_ph true) as [vp|] eqn:Hv.
  - exists vp. split; [reflexivity|].
    exact (proj1 (proj2 (proj2 (proj2
             (visit_info_well_formed example_url_hostname (fun s => s) example_ph true vp Hv))))).
  - exfalso. vm_compute in Hv. discriminate.
Defined.

(** X9: browser detection tests "Chrome" first, so any user agent that
    mentions Chrome (Chromium-based Edge, Opera, Android WebView, ...) is
    reported as Chrome; and the browser is left unset exactly when none of
    the markers Chrome, Firefox, Safari, Edge, MSIE and Trident occurs (the
    branch for Safari user agents that mention Chrome is unreachable). *)
Theorem browser_detection_first_match :
  forall ua : string,
  (includes ua "Chrome" = true -> browser (getBrowserInfo ua) = Some "Chrome") /\
  (browser (getBrowserInfo ua) = None <->
     includes ua "Chrome" = false /\ includes ua "Firefox" = false /\
     includes ua "Safari" = false /\ includes ua "Edge" = false /\
     includes ua "MSIE" = false /\ includes ua "Trident" = false).
Proof.
  intros ua. unfold getBrowserInfo.
  destruct (includes ua "Chrome"), (includes ua "Firefox"), (includes ua "Safari"),
    (includes ua "Edge"), (includes ua "MSIE"), (includes ua "Trident");
    cbn; intuition congruence.
Qed.

Lemma browser_detection_first_match_witness :
  browser (getBrowserInfo
    "Mozilla/5.0 (Windows NT 10.0; Win64; x64) AppleWebKit/537.36 (KHTML, like Gecko) Chrome/70.0.3538.102 Safari/537.36 Edge/18.19582")
  = Some "Chrome".
Proof. apply browser_detection_first_match. vm_compute. reflexivity. Defined.

(** X10: OS detection takes the first of "Win", "Mac" and "Linux" that
    occurs, so an Android user agent that mentions Linux is reported as
    Linux, without version, and an iPhone or iPad user agent that mentions
    "Mac OS X" as MacOS; only the Windows and Mac branches ever set an OS
    version. *)
Theorem os_detection_first_match :
  forall ua : string,
  (includes ua "Win" = true -> os (getDeviceAndOS ua) = Some "Windows") /\
  (includes ua "Win" = false -> includes ua "Mac" = true ->
     os (getDeviceAndOS ua) = Some "MacOS") /\
  (includes ua "Win" = false -> includes ua "Mac" = false -> includes ua "Linux" = true ->
     os (getDeviceAndOS ua) = Some "Linux" /\ osVersion (getDeviceAndOS ua) = None) /\
  (osVersion (getDeviceAndOS ua) <> None ->
     includes ua "Win" = true \/ includes ua "Mac" = true).
Proof.
  intros ua. unfold getDeviceAndOS.
  destruct (includes ua "Win"), (includes ua "Mac"), (includes ua "Linux"),
    (includes ua "Android"); cbn; try destruct (_ || _); cbn; intuition congruence.
Qed.

Lemma os_detection_first_match_witness :
  os (getDeviceAndOS
        "Mozilla/5.0 (Linux; Android 13; Pixel 7) AppleWebKit/537.36 (KHTML, like Gecko) Chrome/116.0.0.0 Mobile Safari/537.36")
    = Some "Linux" /\
  os (getDeviceAndOS
        "Mozilla/5.0 (iPhone; CPU iPhone OS 17_0 like Mac OS X) AppleWebKit/605.1.15 (KHTML, like Gecko) Version/17.0 Mobile/15E148 Safari/604.1")
    = Some "MacOS".
Proof.
  split.
  - apply (proj1 (proj2 (proj2 (os_detection_first_match _)))); vm_compute; reflexivity.
  - apply (proj1 (proj2 (os_detection_first_match _))); vm_compute; reflexivity.
Defined.

Lemma split_on_no_sep sep s :
  includes s (String sep EmptyString) = false -> split_on sep s = [s].
Proof.
  induction s as [|c s IH]; simpl; [reflexivity|].
  intros H. apply orb_false_iff in H as [H1 H2].
  rewrite andb_true_r in H1. rewrite Ascii.eqb_sym, H1, IH by exact H2. reflexivity.
Qed.

Lemma break_at_first sep n v :
  includes n (String sep EmptyString) = false ->
  break_at sep (String.append n (String sep v)) = (n, Some v).
Proof.
  induction n as [|c n IH]; simpl; intros H.
  - rewrite Ascii.eqb_refl. reflexivity.
  - apply orb_false_iff in H as [H1 H2].
    rewrite andb_true_r in H1. rewrite Ascii.eqb_sym, H1, IH by exact H2. reflexivity.
Qed.

Lemma includes_append_false s t p :
  String.length p = 1 ->
  includes s p = false -> includes t p = false -> includes (String.append s t) p = false.
Proof.
  intros Hp. induction s as [|c s IH]; simpl; intros Hs Ht; [exact Ht|].
  apply orb_false_iff in Hs as [H1 H2]. apply orb_false_iff. split; [|auto].
  destruct p as [|d [|e q]]; simpl in *; try discriminate; exact H1.
Qed.

Lemma URLSearchParams_single :
  forall (form_decode : string -> string) (n v : string),
  includes n "&" = false -> includes n "=" = false -> includes v "&" = false ->
  URLSearchParams form_decode (String "?" (String.append n (String "=" v))) =
    [(form_decode n, form_decode v)].
Proof.
  intros fd n v Hn1 Hn2 Hv. unfold URLSearchParams. cbv beta iota zeta.
  rewrite (Ascii.eqb_refl "?"%char).
  rewrite split_on_no_sep.
  - simpl List.filter. destruct (String.eqb_spec (String.append n (String "=" v)) "")
      as [He|He].
    + destruct n; discriminate.
    + simpl. rewrite break_at_first by exact Hn2. reflexivity.
  - apply includes_append_false; [reflexivity|exact Hn1|].
    simpl. exact Hv.
Qed.

(** X11: a query string "?name=value" whose name holds no [&] or [=] and
    whose value holds no [&] parses to the single decoded pair. *)
Theorem search_single_param :
  forall (form_decode : string -> string) (n v : string),
  includes n "&" = false -> includes n "=" = false -> includes v "&" = false ->
  URLSearchParams form_decode (String "?" (String.append n (String "=" v))) =
    [(form_decode n, form_decode v)].
Proof. intros fd n v. apply URLSearchParams_single. Qed.

Lemma search_single_param_witness :
  URLSearchParams (fun s => s) "?utm_source=google" = [("utm_source", "google")].
Proof.
  exact (search_single_param (fun s => s) "utm_source" "google"
           eq_refl eq_refl eq_refl).
Defined.

(** X12: a query string carrying only [utm_source=v] yields [utm_source]
    equal to [v] decoded and the four other current tags [null]; on an
    initial session it also yields [$initial_utm_source] equal to [v]
    decoded, [$initial_utm_medium] and [$initial_utm_campaign] equal to
    "organic", and [$initial_utm_term] and [$initial_utm_content] [null]. *)
Theorem utm_single_source_param :
  forall (form_decode : string -> string) (v : string) (flag : bool),
  form_decode "utm_source" = "utm_source" ->
  includes v "&" = false ->
  let tags := getUTMTags form_decode (String "?" (String.append "utm_source" (String "=" v))) flag in
  obj_get "utm_source" tags = Some (JStr (form_decode v)) /\
  Forall (fun n => obj_get n tags = Some JNull)
    ["utm_medium"; "utm_campaign"; "utm_term"; "utm_content"] /\
  (flag = true ->
     obj_get "$initial_utm_source" tags = Some (JStr (form_decode v)) /\
     obj_get "$initial_utm_medium" tags = Some (JStr "organic") /\
     obj_get "$initial_utm_campaign" tags = Some (JStr "organic") /\
     obj_get "$initial_utm_term" tags = Some JNull /\
     obj_get "$initial_utm_content" tags = Some JNull).
Proof.
  intros fd v flag Hfd Hv tags. subst tags. unfold getUTMTags.
  rewrite URLSearchParams_single by (exact eq_refl || exact Hv). rewrite Hfd.
  destruct flag; (split; [reflexivity|split; [repeat constructor|]]);
    try (intros; discriminate); intros _; repeat split.
Qed.

Lemma utm_single_source_param_witness :
  obj_get "$initial_utm_source"
    (getUTMTags (fun s => s) "?utm_source=google" true) = Some (JStr "google").
Proof.
  assert (Hfd : (fun s : string => s) "utm_source" = "utm_source") by reflexivity.
  assert (Hv : includes "google" "&" = false) by reflexivity.
  exact (proj1 (proj2 (proj2 (utm_single_source_param (fun s => s) "google" true Hfd Hv))
                 eq_refl)).
Defined.

(** X13: every capture (feature-flag tracking, event, page view, page
    leave) is sent for the [user_id] cookie whenever it is present, even
    when it is empty, and otherwise for the [anonymous_id] cookie or, when
    that is absent too, the freshly generated identifier. *)
Theorem capture_distinct_id :
  forall (url_hostname : string -> option string) (form_decode : string -> string)
         (r : Route) (req : Request) (ga gs : string) (o : Outcome) (e : Event),
  In r [FeatureFlagsTrack; EventRoute; Page; Pageleave] ->
  handle url_hostname form_decode r req ga gs = Some o ->
  In (Capture e) (calls o) ->
  distinctId e =
    match cookies req !! "user_id" with
    | Some u => u
    | None => from_option id ga (cookies req !! "anonymous_id")
    end.
Proof.
  intros uh fd r req ga gs o e Hr Hh Hin. simpl in Hr.
  destruct Hr as [<-|[<-|[<-|[<-|[]]]]]; open_handler Hh; cbn [calls] in Hin;
    destruct Hin as [Hin|[]]; injection Hin as <-; cbn [distinctId];
    unfold distinct_of, getIdsFromCookies; cbn [user_id anonymous_id];
    destruct (cookies req !! "user_id"); reflexivity.
Qed.

Lemma capture_distinct_id_witness :
  exists o e,
    handle example_url_hostname (fun s => s) Pageleave
      (example_request (<["user_id":=""]> ∅)) example_gen_anon example_gen_sess = Some o /\
    In (Capture e) (calls o) /\ distinctId e = "".
Proof.
  assert (Hr : In Pageleave [FeatureFlagsTrack; EventRoute; Page; Pageleave])
    by (simpl; tauto).
  destruct (handle example_url_hostname (fun s => s) Pageleave
              (example_request (<["user_id":=""]> ∅)) example_gen_anon example_gen_sess)
    as [o|] eqn:Ho; [|exfalso; vm_compute in Ho; discriminate].
  destruct (calls o) as [|c cs] eqn:Hc; [exfalso; vm_compute in Ho; injection Ho as <-;
                                          discriminate|].
  destruct c as [| e | | |]; try (exfalso; vm_compute in Ho; injection Ho as <-;
                                 discriminate).
  assert (Hin : In (Capture e) (calls o)) by (rewrite Hc; left; reflexivity).
  exists o, e. split; [reflexivity|]. split; [exact Hin|].
  rewrite (capture_distinct_id _ _ _ _ _ _ o e Hr Ho Hin). reflexivity.
Defined.

(** X14: the event and page-leave captures set [$ip] to the
    [X-Forwarded-For] header when it is present and non-empty, and
    otherwise to the socket's remote address ([undefined] when there is
    none): for page leaves always, for events unless [custom_properties]
    set [$ip]. *)
Theorem event_pageleave_ip :
  forall (url_hostname : string -> option string) (form_decode : string -> string),
  (forall (req : Request) (ga gs : string) (o : Outcome) (e : Event),
     handle url_hostname form_decode EventRoute req ga gs = Some o ->
     In (Capture e) (calls o) ->
     ~ In "$ip" (map fst (custom_properties (body req))) ->
     obj_get "$ip" (properties e) =
       Some (match x_forwarded_for (headers req) with
             | Some x => if String.eqb x "" then of_opt (remoteAddress (headers req)) else JStr x
             | None => of_opt (remoteAddress (headers req))
             end)) /\
  (forall (req : Request) (ga gs : string) (o : Outcome) (e : Event),
     handle url_hostname form_decode Pageleave req ga gs = Some o ->
     In (Capture e) (calls o) ->
     obj_get "$ip" (properties e) =
       Some (match x_forwarded_for (headers req) with
             | Some x => if String.eqb x "" then of_opt (remoteAddress (headers req)) else JStr x
             | None => of_opt (remoteAddress (headers req))
             end)).
Proof.
  intros uh fd. split.
  - intros req ga gs o e Hh Hin Hc.
    cbn [handle] in Hh. unfold handle_event in Hh.
    destruct (getVisitInfo uh fd (ph (body req)) false) as [vp|] eqn:Hv; [|discriminate].
    destruct (uh (page_url (body req))) as [hn|]; [|discriminate].
    injection Hh as <-. cbn [calls] in Hin. destruct Hin as [Hin|[]]. injection Hin as <-.
    cbn [properties]. rewrite obj_get_lit. cbn [fold_left app].
    rewrite fold_left_app, (fold_last_assign_absent _ _ _ Hc),
      (fold_last_assign_absent _ _ _ (page_ip_not_in_visit _ _ _ _ _ Hv)).
    unfold last_assign, js_or_opt, truthy_opt. cbn [fst snd].
    destruct (x_forwarded_for (headers req)) as [x|];
      [destruct (String.eqb_spec x "") as [->|Hne]; [|apply String.eqb_neq in Hne]|];
      cbn [truthy of_opt]; rewrite ?Hne; simpl; reflexivity.
  - intros req ga gs o e Hh Hin.
    cbn [handle] in Hh. unfold handle_pageleave in Hh.
    destruct (uh (page_url (body req))) as [hn|]; [|discriminate].
    injection Hh as <-. cbn [calls] in Hin. destruct Hin as [Hin|[]]. injection Hin as <-.
    cbn [properties]. rewrite obj_get_lit.
    unfold js_or_opt, truthy_opt.
    destruct (x_forwarded_for (headers req)) as [x|];
      [destruct (String.eqb_spec x "") as [->|Hne]; [|apply String.eqb_neq in Hne]|];
      cbn [truthy of_opt]; rewrite ?Hne; simpl; reflexivity.
Qed.

Lemma event_pageleave_ip_witness :
  exists o e,
    handle example_url_hostname (fun s => s) Pageleave
      {| cookies := ∅;
         headers := {| host := Some "example.com"; x_forwarded_for := Some "";
                       remoteAddress := Some "10.0.0.1" |};
         body := example_body |} example_gen_anon example_gen_sess = Some o /\
    In (Capture e) (calls o) /\ obj_get "$ip" (properties e) = Some (JStr "10.0.0.1").
Proof.
  match goal with
  | |- exists o e, handle ?uh ?fd ?r ?req ?ga ?gs = Some o /\ _ =>
      destruct (handle uh fd r req ga gs) as [o|] eqn:Ho;
      [|exfalso; vm_compute in Ho; discriminate]
  end.
  destruct (calls o) as [|c cs] eqn:Hcl; [exfalso; vm_compute in Ho; injection Ho as <-;
                                           discriminate|].
  destruct c as [| e | | |]; try (exfalso; vm_compute in Ho; injection Ho as <-;
                                 discriminate).
  assert (Hin : In (Capture e) (calls o)) by (rewrite Hcl; left; reflexivity).
  exists o, e. split; [reflexivity|]. split; [exact Hin|].
  rewrite (proj2 (event_pageleave_ip _ _) _ _ _ o e Ho Hin). reflexivity.
Defined.

Lemma getVisitInfo_no_initial uh fd p vp k :
  getVisitInfo uh fd p false = Some vp -> In k initial_names -> ~ In k (map fst vp).
Proof.
  intros Hv Hk Hin. apply getVisitInfo_Some in Hv as [ri [_ ->]].
  apply keys_remove, keys_lit in Hin. rewrite map_app in Hin.
  apply in_app_or in Hin as [Hin|Hin].
  - simpl in Hk, Hin. intuition congruence.
  - unfold getUTMTags in Hin. cbn [spread_if] in Hin. rewrite app_nil_r in Hin.
    apply keys_lit in Hin. simpl in Hk, Hin. intuition congruence.
Qed.

(** X15: the [$initial_utm_*] keys never reach a page view unless it is
    an initial session (no non-empty [session_id], [anonymous_id] or
    [user_id] cookie), and never reach a tracked event unless its
    [custom_properties] set them. *)
Theorem initial_utm_only_on_initial_pageview :
  forall (url_hostname : string -> option string) (form_decode : string -> string),
  (forall (req : Request) (ga gs : string) (o : Outcome) (e : Event) (k : string),
     handle url_hostname form_decode Page req ga gs = Some o ->
     In (Capture e) (calls o) -> In k initial_names ->
     isInitialSession (cookies req) = false ->
     obj_get k (properties e) = None) /\
  (forall (req : Request) (ga gs : string) (o : Outcome) (e : Event) (k : string),
     handle url_hostname form_decode EventRoute req ga gs = Some o ->
     In (Capture e) (calls o) -> In k initial_names ->
     ~ In k (map fst (custom_properties (body req))) ->
     obj_get k (properties e) = None).
Proof.
  intros uh fd. split.
  - intros req ga gs o e k Hh Hin Hk Hinit. cbn [handle] in Hh. unfold handle_page in Hh.
    rewrite Hinit in Hh.
    destruct (getVisitInfo uh fd (ph (body req)) false) as [vp|] eqn:Hv; [|discriminate].
    destruct (uh (page_url (body req))) as [hn|]; [|discriminate].
    injection Hh as <-. cbn [calls] in Hin. destruct Hin as [Hin|[]]. injection Hin as <-.
    cbn [properties]. rewrite obj_get_lit. cbn [fold_left app].
    rewrite fold_left_app, fold_last_assign_absent,
      (fold_last_assign_absent _ _ _ (getVisitInfo_no_initial _ _ _ _ _ Hv Hk)).
    + simpl in Hk. repeat (destruct Hk as [<-|Hk]; [reflexivity|]). destruct Hk.
    + destruct (negb (hasActiveSession (cookies req))); simpl; simpl in Hk; intuition congruence.
  - intros req ga gs o e k Hh Hin Hk Hc. cbn [handle] in Hh. unfold handle_event in Hh.
    destruct (getVisitInfo uh fd (ph (body req)) false) as [vp|] eqn:Hv; [|discriminate].
    destruct (uh (page_url (body req))) as [hn|]; [|discriminate].
    injection Hh as <-. cbn [calls] in Hin. destruct Hin as [Hin|[]]. injection Hin as <-.
    cbn [properties]. rewrite obj_get_lit. cbn [fold_left app].
    rewrite fold_left_app, (fold_last_assign_absent _ _ _ Hc),
      (fold_last_assign_absent _ _ _ (getVisitInfo_no_initial _ _ _ _ _ Hv Hk)).
    simpl in Hk. repeat (destruct Hk as [<-|Hk]; [reflexivity|]). destruct Hk.
Qed.

Lemma initial_utm_only_on_initial_pageview_witness :
  exists o e,
    handle example_url_hostname (fun s => s) Page (example_request example_jar)
      example_gen_anon example_gen_sess = Some o /\
    In (Capture e) (calls o) /\ obj_get "$initial_utm_source" (properties e) = None.
Proof.
  destruct (initial_utm_only_on_initial_pageview example_url_hostname (fun s => s)) as [H1 _].
  destruct (handle example_url_hostname (fun s => s) Page (example_request example_jar)
              example_gen_anon example_gen_sess) as [o|] eqn:Ho;
    [|exfalso; vm_compute in Ho; discriminate].
  destruct (calls o) as [|c cs] eqn:Hcl; [exfalso; vm_compute in Ho; injection Ho as <-;
                                           discriminate|].
  destruct c as [| e | | |]; try (exfalso; vm_compute in Ho; injection Ho as <-;
                                 discriminate).
  assert (Hin : In (Capture e) (calls o)) by (rewrite Hcl; left; reflexivity).
  assert (Hk : In "$initial_utm_source" initial_names) by (simpl; tauto).
  assert (Hi : isInitialSession (cookies (example_request example_jar)) = false)
    by reflexivity.
  exists o, e. split; [reflexivity|]. split; [exact Hin|].
  exact (H1 _ _ _ o e _ Ho Hin Hk Hi).
Defined.
